(** * bk-iam-saas: error middleware and open authorization views

    A shallow embedding of

    - [saas/backend/common/middlewares.py]: [AppExceptionMiddleware]
      ([_is_open_api_request], [_exception_to_error], [process_exception])
      and the recursive helper [_one_line_error];
    - [saas/backend/api/authorization/views/resource.py]: the four [post]
      handlers of [AuthInstanceView], [AuthPathView],
      [AuthBatchInstanceView] and [AuthBatchPathView].

    Python exceptions are results ([Ok] / [Raise]); calls with side effects
    (transaction rollback, debug trace, logging, error reporting, audit
    context, the policy store) thread an explicit state. *)

From Stdlib Require Import ZArith List String Ascii Bool Arith Lia.
Import ListNotations.
Open Scope string_scope.
Open Scope list_scope.

Set Implicit Arguments.
Set Warnings "-register-all".

(** ** Python runtime: exceptions and effects *)

(** The exceptions the modelled code raises by itself, and [Raised] for an
    exception that comes out of a collaborator (serializer validation, the
    policy translator, the policy store). *)
Inductive PyError : Type :=
| IndexError
| StopIteration
| KeyError (key : string)
| AttributeError (attr : string)
| RecursionError
| Raised (name : string).

Inductive Result (A : Type) : Type :=
| Ok (a : A)
| Raise (e : PyError).

Arguments Ok {A} a.
Arguments Raise {A} e.

(** A computation over a state [S]: the state reached when an exception is
    raised is kept, as the effects performed before a [raise] are. *)
Definition M (S A : Type) : Type := S -> Result A * S.

Definition ret {S A : Type} (a : A) : M S A := fun s => (Ok a, s).

Definition bind {S A B : Type} (c : M S A) (k : A -> M S B) : M S B :=
  fun s =>
    match c s with
    | (Ok a, s') => k a s'
    | (Raise e, s') => (Raise e, s')
    end.

Definition lift {S A : Type} (r : Result A) : M S A := fun s => (r, s).

Definition emit {E : Type} (e : E) : M (list E) unit :=
  fun s => (Ok tt, s ++ [e]).

Declare Scope py_scope.
Delimit Scope py_scope with py.
Notation "x <- c ;; k" := (bind c (fun x => k))
  (at level 61, c at next level, right associativity) : py_scope.
Notation "c ;; k" := (bind c (fun _ => k))
  (at level 61, right associativity) : py_scope.
Open Scope py_scope.

(** ** Values of validation details and request parameters

    [exc.detail] of a rest_framework exception, and the parameters of a
    request: [None], a string (an [ErrorDetail] is a [str]), a list, or a
    dict.  A dict keeps its insertion order, so [next(iter(d.items()))] is
    the head of the association list. *)
Inductive Detail : Type :=
| VNone
| VStr (s : string)
| VList (l : list Detail)
| VDict (items : list (string * Detail)).

Fixpoint depth (d : Detail) : nat :=
  match d with
  | VNone | VStr _ => 0
  | VList l => S (list_max (map depth l))
  | VDict items => S (list_max (map (fun kv => depth (snd kv)) items))
  end.

(** ** Serializer schema

    What [_one_line_error] inspects of [exc.serializer]: whether it is a
    [ListField] (which has a [child]), a [Serializer] (which has [fields]),
    or any other field (neither attribute), and the [label] of a field. *)
Inductive Field : Type :=
| ListField (label : string) (child : Field)
| Serializer (label : string) (fields : list (string * Field))
| OtherField (label : string).

Definition label (f : Field) : string :=
  match f with
  | ListField l _ | Serializer l _ | OtherField l => l
  end.

Fixpoint lookup {A : Type} (key : string) (d : list (string * A)) : option A :=
  match d with
  | [] => None
  | (k, v) :: rest => if String.eqb key k then Some v else lookup key rest
  end.

(** [key in d] *)
Definition contains_key {A : Type} (key : string) (d : list (string * A)) : bool :=
  match lookup key d with Some _ => true | None => false end.

(** [d[key]] *)
Definition getitem {A : Type} (d : list (string * A)) (key : string) : Result A :=
  match lookup key d with Some v => Ok v | None => Raise (KeyError key) end.

(** [getattr(f, "fields", {})] *)
Definition getattr_fields (f : Field) : list (string * Field) :=
  match f with
  | Serializer _ fs => fs
  | _ => []
  end.

(** [f.fields] *)
Definition fields (f : Field) : Result (list (string * Field)) :=
  match f with
  | Serializer _ fs => Ok fs
  | _ => Raise (AttributeError "fields")
  end.

(** [f.child] *)
Definition child (f : Field) : Result Field :=
  match f with
  | ListField _ c => Ok c
  | _ => Raise (AttributeError "child")
  end.

(** ** Exceptions handled by the middleware *)

Inductive ExcClass : Type :=
| Http404
| NotAuthenticated
| AuthenticationFailed
| PermissionDenied
| MethodNotAllowed
| ParseError
| ValidationError.

Definition ExcClass_eqb (a b : ExcClass) : bool :=
  match a, b with
  | Http404, Http404
  | NotAuthenticated, NotAuthenticated
  | AuthenticationFailed, AuthenticationFailed
  | PermissionDenied, PermissionDenied
  | MethodNotAllowed, MethodNotAllowed
  | ParseError, ParseError
  | ValidationError, ValidationError => true
  | _, _ => false
  end.

(** The stable codes of [error_codes] the middleware names, and [OTHER] for
    every further code a domain failure carries. *)
Inductive ErrorCode : Type :=
| UNAUTHORIZED
| FORBIDDEN
| NOT_FOUND_ERROR
| METHOD_NOT_ALLOWED
| JSON_FORMAT_ERROR
| VALIDATE_ERROR
| SYSTEM_ERROR
| OTHER (code : Z).

Definition ErrorCode_eqb (a b : ErrorCode) : bool :=
  match a, b with
  | UNAUTHORIZED, UNAUTHORIZED
  | FORBIDDEN, FORBIDDEN
  | NOT_FOUND_ERROR, NOT_FOUND_ERROR
  | METHOD_NOT_ALLOWED, METHOD_NOT_ALLOWED
  | JSON_FORMAT_ERROR, JSON_FORMAT_ERROR
  | VALIDATE_ERROR, VALIDATE_ERROR
  | SYSTEM_ERROR, SYSTEM_ERROR => true
  | OTHER x, OTHER y => Z.eqb x y
  | _, _ => false
  end.

(** [CodeException]: an error with its stable code, its message and its
    HTTP status. *)
Record CodeException : Type := mkCodeException {
  code : ErrorCode;
  message : string;
  status_code : Z
}.

(** An exception object as the middleware sees it: the framework classes
    it is an instance of (a class may inherit from several of them),
    [exc.detail], [exc.serializer] when one was attached, and, when the
    object is an instance of [CodeException], the error it is. *)
Record Exception : Type := mkException {
  classes : list ExcClass;
  detail : Detail;
  serializer : option Field;
  code_exception : option CodeException
}.

Definition isinstance (exc : Exception) (cls : ExcClass) : bool :=
  existsb (ExcClass_eqb cls) (classes exc).

(** A request: its path, its method, and the attribute named by a method
    ([request.POST], [request.GET]) where there is one. *)
Record Request : Type := mkRequest {
  path : string;
  method : string;
  params : string -> option Detail
}.

(** [getattr(request, name, None)] *)
Definition getattr_request (request : Request) (name : string) : Detail :=
  match params request name with
  | Some v => v
  | None => VNone
  end.

Record Response (B : Type) : Type := mkResponse {
  data : B;
  status : Z
}.

Definition HTTP_200_OK : Z := 200.

(** [needle in s] on strings *)
Fixpoint str_in (needle s : string) : bool :=
  String.prefix needle s
  || match s with
     | EmptyString => false
     | String _ s' => str_in needle s'
     end.

(** ** Effects of the middleware

    The calls the middleware makes for their effect, recorded in call
    order: [set_rollback()], [log_api_error_trace(request)] (with its
    optional second argument), [logger.error(...)] with its four arguments,
    and sentry's [capture_exception(exc)]. *)
Inductive Event : Type :=
| SetRollback
| LogApiErrorTrace (request : Request) (arg : option bool)
| LoggerError (stack url method_ request_params : string)
| CaptureException (exc : Exception).

Definition Trace : Type := list Event.

Definition set_rollback : M Trace unit := emit SetRollback.

Definition log_api_error_trace (request : Request) (arg : option bool) : M Trace unit :=
  emit (LogApiErrorTrace request arg).

Definition logger_error (stack url method_ request_params : string) : M Trace unit :=
  emit (LoggerError stack url method_ request_params).

Definition capture_exception (exc : Exception) : M Trace unit :=
  emit (CaptureException exc).

Section Middlewares.

(** [rest_framework.settings.api_settings.NON_FIELD_ERRORS_KEY] *)
Variable NON_FIELD_ERRORS_KEY : string.

(** [str(v)] of a value that is not a string, and [json.dumps(v)] *)
Variable repr : Detail -> string.
Variable json_dumps : Detail -> string.

(** [traceback.format_exc()] while [exc] is being handled *)
Variable format_exc : Exception -> string.

(** The table of [backend.common.error_codes]: the default message and
    the HTTP status registered for each code. *)
Variable default_message : ErrorCode -> string.
Variable native_status : ErrorCode -> Z.

(** How [format] builds the message of an error from its default message,
    the [message] argument and the [replace] argument when one is given. *)
Variable format_message : string -> Detail -> option bool -> string.

(** [error_codes.X] *)
Definition error_codes (c : ErrorCode) : CodeException :=
  {| code := c; message := default_message c; status_code := native_status c |}.

(** Modelled from the spec: [format] belongs to [backend.common.error_codes],
    which is outside the two modules embedded here.  The formatted error
    keeps the code (and with it the status) of the error it is called on,
    and its message carries the given [message]. *)
Definition format (e : CodeException) (msg : Detail) (replace : option bool)
  : CodeException :=
  {| code := code e;
     message := format_message (message e) msg replace;
     status_code := status_code e |}.

(** Modelled from the spec: [as_json] belongs to [backend.common.error_codes]
    as well.  The uniform error body carries the code and the message of
    the error. *)
Definition as_json (e : CodeException) : ErrorCode * string := (code e, message e).

(** Modelled from the spec: what [isinstance(error, ignore_errors)] decides
    lies in [backend.common.error_codes]; an error is one of
    [ignore_errors] when its code is one of theirs. *)
Definition isinstance_error (error : CodeException) (ignore_errors : list CodeException) : bool :=
  existsb (fun e => ErrorCode_eqb (code error) (code e)) ignore_errors.

(** [str(v)] *)
Definition str (v : Detail) : string :=
  match v with
  | VStr s => s
  | _ => repr v
  end.

(** [ValidationError(detail)] of rest_framework: [None] becomes the default
    detail, and what is neither a dict nor a list is wrapped in a list. *)
Definition new_ValidationError (d : Detail) : Exception :=
  {| classes := [ValidationError];
     detail := match d with
               | VNone => VList [VStr "Invalid input."]
               | VStr s => VList [VStr s]
               | _ => d
               end;
     serializer := None;
     code_exception := None |}.

(** [child_error.serializer = field] *)
Definition set_serializer (exc : Exception) (field : Field) : Exception :=
  {| classes := classes exc;
     detail := detail exc;
     serializer := Some field;
     code_exception := code_exception exc |}.

(** [l[0]] *)
Definition first (l : list Detail) : Result Detail :=
  match l with
  | x :: _ => Ok x
  | [] => Raise IndexError
  end.

(** [next(iter(d.items()))] *)
Definition next_iter_items (d : Detail) : Result (string * Detail) :=
  match d with
  | VDict (kv :: _) => Ok kv
  | VDict [] => Raise StopIteration
  | _ => Raise (AttributeError "items")
  end.

(** The end of [_one_line_error], from the non-field-errors test on. *)
Definition one_line_leaf (exc : Exception) (key : string) (error : Detail) : Result Detail :=
  if String.eqb key NON_FIELD_ERRORS_KEY then Ok error
  else
    match serializer exc with
    | Some ser =>
        match fields ser with
        | Ok fs =>
            if contains_key key fs then
              match getitem fs key with
              | Ok f => Ok (VStr (String.append (label f) (String.append ": " (str error))))
              | Raise e => Raise e
              end
            else Ok (VStr (String.append key (String.append ": " (str error))))
        | Raise e => Raise e
        end
    | None => Ok (VStr (String.append key (String.append ": " (str error))))
    end.

(** [_one_line_error], with a bound on the depth of its recursion. *)
Fixpoint _one_line_error_rec (fuel : nat) (exc : Exception) : Result Detail :=
  match fuel with
  | O => Raise RecursionError
  | S fuel' =>
      match detail exc with
      | VList l => first l
      | _ =>
          match next_iter_items (detail exc) with
          | Raise e => Raise e
          | Ok (key, error) =>
              match error with
              | VList l =>
                  match first l with
                  | Ok error0 => one_line_leaf exc key error0
                  | Raise e => Raise e
                  end
              | VDict _ =>
                  match serializer exc with
                  | Some ser =>
                      match
                        (if contains_key key (getattr_fields ser)
                         then lookup key (getattr_fields ser) else None)
                      with
                      | Some (ListField _ field_child) =>
                          match next_iter_items error with
                          | Ok (_, child) =>
                              _one_line_error_rec fuel'
                                (set_serializer (new_ValidationError child) field_child)
                          | Raise e => Raise e
                          end
                      | Some (Serializer _ _ as field) =>
                          _one_line_error_rec fuel'
                            (set_serializer (new_ValidationError error) field)
                      | _ =>
                          match ser with
                          | ListField _ ser_child =>
                              match next_iter_items (detail exc) with
                              | Ok (_, child) =>
                                  _one_line_error_rec fuel'
                                    (set_serializer (new_ValidationError child) ser_child)
                              | Raise e => Raise e
                              end
                          | _ => one_line_leaf exc key error
                          end
                      end
                  | None => one_line_leaf exc key error
                  end
              | _ => one_line_leaf exc key error
              end
          end
      end
  end.

(** [_one_line_error(exc)]: every call descends in [exc.detail], so its
    depth bounds the recursion. *)
Definition _one_line_error (exc : Exception) : Result Detail :=
  _one_line_error_rec (S (depth (detail exc))) exc.

(** [AppExceptionMiddleware._is_open_api_request] *)
Definition _is_open_api_request (request : Request) : bool :=
  str_in "/api/v1/open/" (path request).

(** [AppExceptionMiddleware._exception_to_error] *)
Definition _exception_to_error (request : Request) (exc : Exception)
  : M Trace (option CodeException) :=
  if isinstance exc NotAuthenticated || isinstance exc AuthenticationFailed then
    ret (Some (error_codes UNAUTHORIZED))
  else if isinstance exc PermissionDenied then
    ret (Some (error_codes FORBIDDEN))
  else if isinstance exc MethodNotAllowed then
    ret (Some (format (error_codes METHOD_NOT_ALLOWED) (detail exc) None))
  else if isinstance exc ParseError then
    ret (Some (format (error_codes JSON_FORMAT_ERROR) (detail exc) None))
  else if isinstance exc ValidationError then
    if _is_open_api_request request then
      ret (Some (format (error_codes VALIDATE_ERROR)
                        (VStr (json_dumps (detail exc))) (Some true)))
    else
      line <- lift (_one_line_error exc) ;;
      ret (Some (format (error_codes VALIDATE_ERROR) line None))
  else
    match code_exception exc with
    | Some e =>
        (* isinstance(exc, CodeException) *)
        set_rollback ;;
        log_api_error_trace request None ;;
        ret (Some e)
    | None => ret None
    end.

Definition ignore_errors : list CodeException :=
  [ error_codes UNAUTHORIZED;
    error_codes FORBIDDEN;
    error_codes NOT_FOUND_ERROR;
    error_codes SYSTEM_ERROR ].

(** [AppExceptionMiddleware.process_exception]; [None] leaves the
    exception to the framework. *)
Definition process_exception (request : Request) (exc : Exception)
  : M Trace (option (Response (ErrorCode * string))) :=
  if isinstance exc Http404 then ret None
  else
    error <- _exception_to_error request exc ;;
    error <- match error with
             | Some e => ret e
             | None =>
                 logger_error (format_exc exc) (path request) (method request)
                   (json_dumps (getattr_request request (method request))) ;;
                 log_api_error_trace request (Some true) ;;
                 capture_exception exc ;;
                 ret (error_codes SYSTEM_ERROR)
             end ;;
    let status_code :=
      if _is_open_api_request request && negb (isinstance_error error ignore_errors)
      then HTTP_200_OK
      else status_code error in
    ret (Some (mkResponse (as_json error) status_code)).

End Middlewares.

(** ** Open authorization views *)

(** [backend.service.models.Subject] *)
Record Subject : Type := mkSubject {
  subject_type : string;
  subject_id : string
}.

(** An action reference [{"id": ...}] of a request or of a response. *)
Record Action : Type := mkAction {
  id : string
}.

(** [serializer.validated_data] of [AuthInstanceSLZ] and [AuthPathSLZ] *)
Record AuthData : Type := mkAuthData {
  operate : string;
  subject : Subject;
  system : string;
  expired_at : Z;
  action : Action;
  resources : list Detail
}.

(** [serializer.validated_data] of [AuthBatchInstanceSLZ] and
    [AuthBatchPathSLZ] *)
Record AuthBatchData : Type := mkAuthBatchData {
  batch_operate : string;
  batch_subject : Subject;
  batch_system : string;
  batch_expired_at : Z;
  actions : list Action;
  batch_resources : list Detail
}.

(** A policy before it is applied: one action over a set of resources. *)
Record Policy : Type := mkPolicy {
  policy_system : string;
  policy_action_id : string;
  policy_resources : list Detail;
  policy_expired_at : Z
}.

(** A policy as the store returns it. *)
Record StoredPolicy : Type := mkStoredPolicy {
  policy_id : Z;
  action_id : string;
  stored_subject : Subject;
  stored_expired_at : Z
}.

(** The keyword arguments of one [audit_context_setter] call. *)
Record AuditContext : Type := mkAuditContext {
  audit_operate : string;
  audit_subject : Subject;
  audit_system_id : string;
  audit_policies : list StoredPolicy
}.

(** The bodies of the success responses. *)
Record PolicyIdBody : Type := mkPolicyIdBody {
  body_policy_id : Z
}.

Record ActionPolicyBody : Type := mkActionPolicyBody {
  body_action : Action;
  body_action_policy_id : Z
}.

(** [Response(data)]: without a [status] the response is a 200. *)
Definition Response_ok {B : Type} (body : B) : Response B :=
  mkResponse body HTTP_200_OK.

Section Views.

(** The state of the policy store. *)
Variable Store : Type.

(** What a view acts on: the policy store and the audit context. *)
Definition ViewState : Type := (Store * list AuditContext)%type.

(** [serializer.is_valid(raise_exception=True)] followed by
    [serializer.validated_data], for each of the four serializers. *)
Variable AuthInstanceSLZ : Detail -> Result AuthData.
Variable AuthPathSLZ : Detail -> Result AuthData.
Variable AuthBatchInstanceSLZ : Detail -> Result AuthBatchData.
Variable AuthBatchPathSLZ : Detail -> Result AuthBatchData.

(** The resource-schema validation the translator relies on, for
    instance-scoped and for path-scoped resources. *)
Variable valid_instances : string -> list Detail -> bool.
Variable valid_paths : string -> list Detail -> bool.

(** [AuthViewMixin.grant_or_revoke], which applies the policies to the
    store. *)
Variable grant_or_revoke :
  string -> Subject -> list Policy -> Store -> Result (list StoredPolicy) * Store.

(** Modelled from the spec: [AuthorizationTrans] belongs to
    [backend.trans.open_authorization], outside the two modules embedded
    here.  [to_policy_list_for_instance] and [to_policy_list_for_path] produce
    exactly one policy, holding all the given resources under the single
    action; they fail with [InvalidResourceKind] when the schema rejects a
    resource. *)
Definition to_policy_list_for_instance (system_id action_id : string)
    (resources : list Detail) (expired_at : Z) : Result (list Policy) :=
  if valid_instances system_id resources
  then Ok [mkPolicy system_id action_id resources expired_at]
  else Raise (Raised "InvalidResourceKind").

Definition to_policy_list_for_path (system_id action_id : string)
    (resources : list Detail) (expired_at : Z) : Result (list Policy) :=
  if valid_paths system_id resources
  then Ok [mkPolicy system_id action_id resources expired_at]
  else Raise (Raised "InvalidResourceKind").

(** Modelled from the spec: [to_policy_list_for_instances] and
    [to_policy_list_for_paths] of the same [AuthorizationTrans] fan out: one policy per action id, each with the same resources, in the
    order of the action ids. *)
Definition to_policy_list_for_instances (system_id : string) (action_ids : list string)
    (resources : list Detail) (expired_at : Z) : Result (list Policy) :=
  if valid_instances system_id resources
  then Ok (map (fun a => mkPolicy system_id a resources expired_at) action_ids)
  else Raise (Raised "InvalidResourceKind").

Definition to_policy_list_for_paths (system_id : string) (action_ids : list string)
    (resources : list Detail) (expired_at : Z) : Result (list Policy) :=
  if valid_paths system_id resources
  then Ok (map (fun a => mkPolicy system_id a resources expired_at) action_ids)
  else Raise (Raised "InvalidResourceKind").

(** The call [self.grant_or_revoke(operate, subject, policy_list)] *)
Definition call_grant_or_revoke (operate_ : string) (subject_ : Subject)
    (policy_list : list Policy) : M ViewState (list StoredPolicy) :=
  fun st =>
    let (r, store') := grant_or_revoke operate_ subject_ policy_list (fst st) in
    (r, (store', snd st)).

(** [audit_context_setter(operate=..., subject=..., system_id=..., policies=...)] *)
Definition audit_context_setter (operate_ : string) (subject_ : Subject)
    (system_id : string) (policies : list StoredPolicy) : M ViewState unit :=
  fun st =>
    (Ok tt, (fst st, snd st ++ [mkAuditContext operate_ subject_ system_id policies])).

(** [policies[0]] *)
Definition first_policy (policies : list StoredPolicy) : Result StoredPolicy :=
  match policies with
  | p :: _ => Ok p
  | [] => Raise IndexError
  end.

(** [AuthInstanceView.post] *)
Definition AuthInstanceView_post (request_data : Detail)
  : M ViewState (Response PolicyIdBody) :=
  data <- lift (AuthInstanceSLZ request_data) ;;
  let operate := operate data in
  let subject := subject data in
  let system_id := system data in
  let expired_at := expired_at data in
  let action_id := id (action data) in
  let resources := resources data in
  policy_list <- lift (to_policy_list_for_instance system_id action_id resources expired_at) ;;
  policies <- call_grant_or_revoke operate subject policy_list ;;
  audit_context_setter operate subject system_id policies ;;
  p <- lift (first_policy policies) ;;
  ret (Response_ok (mkPolicyIdBody (policy_id p))).

(** [AuthPathView.post] *)
Definition AuthPathView_post (request_data : Detail)
  : M ViewState (Response PolicyIdBody) :=
  data <- lift (AuthPathSLZ request_data) ;;
  let operate := operate data in
  let subject := subject data in
  let system_id := system data in
  let expired_at := expired_at data in
  let action_id := id (action data) in
  let resources := resources data in
  policy_list <- lift (to_policy_list_for_path system_id action_id resources expired_at) ;;
  policies <- call_grant_or_revoke operate subject policy_list ;;
  audit_context_setter operate subject system_id policies ;;
  p <- lift (first_policy policies) ;;
  ret (Response_ok (mkPolicyIdBody (policy_id p))).

(** [AuthBatchInstanceView.post] *)
Definition AuthBatchInstanceView_post (request_data : Detail)
  : M ViewState (Response (list ActionPolicyBody)) :=
  data <- lift (AuthBatchInstanceSLZ request_data) ;;
  let operate := batch_operate data in
  let subject := batch_subject data in
  let system_id := batch_system data in
  let expired_at := batch_expired_at data in
  let action_ids := map (fun a => id a) (actions data) in
  let resources := batch_resources data in
  policy_list <- lift (to_policy_list_for_instances system_id action_ids resources expired_at) ;;
  policies <- call_grant_or_revoke operate subject policy_list ;;
  audit_context_setter operate subject system_id policies ;;
  ret (Response_ok
         (map (fun p => mkActionPolicyBody (mkAction (action_id p)) (policy_id p)) policies)).

(** [AuthBatchPathView.post] *)
Definition AuthBatchPathView_post (request_data : Detail)
  : M ViewState (Response (list ActionPolicyBody)) :=
  data <- lift (AuthBatchPathSLZ request_data) ;;
  let operate := batch_operate data in
  let subject := batch_subject data in
  let system_id := batch_system data in
  let expired_at := batch_expired_at data in
  let action_ids := map (fun a => id a) (actions data) in
  let resources := batch_resources data in
  policy_list <- lift (to_policy_list_for_paths system_id action_ids resources expired_at) ;;
  policies <- call_grant_or_revoke operate subject policy_list ;;
  audit_context_setter operate subject system_id policies ;;
  ret (Response_ok
         (map (fun p => mkActionPolicyBody (mkAction (action_id p)) (policy_id p)) policies)).

End Views.

Section ViewDiscipline.

Variable Store : Type.
Variable grant_or_revoke :
  string -> Subject -> list Policy -> Store -> Result (list StoredPolicy) * Store.

(** What a view may do to the store and to the audit context: nothing, when
    it raises before the store is called; otherwise one [grant_or_revoke]
    call from the store it started with, the audit context being set once,
    with the policies of that call, when and only when the call returned. *)
Definition disciplined {A : Type}
    (st : ViewState Store) (outcome : Result A * ViewState Store) : Prop :=
  (snd outcome = st /\ exists e, fst outcome = Raise e)
  \/ exists operate_ subject_ policy_list result,
      grant_or_revoke operate_ subject_ policy_list (fst st) = (result, fst (snd outcome))
      /\ match result with
         | Raise e => fst outcome = Raise e /\ snd (snd outcome) = snd st
         | Ok policies =>
             exists system_id,
               snd (snd outcome)
               = snd st ++ [mkAuditContext operate_ subject_ system_id policies]
         end.

End ViewDiscipline.

(** ** Language of open-API requests *)

(** What [translation.activate] and [translation.get_language] of django act
    on, the language active for the current thread, and the
    [LANGUAGE_CODE] attribute of the request being processed. *)
Record I18n : Type := mkI18n {
  active_language : string;
  LANGUAGE_CODE : option string
}.

(** [translation.activate(language)] *)
Definition translation_activate (language : string) : M I18n unit :=
  fun s => (Ok tt, mkI18n language (LANGUAGE_CODE s)).

(** [translation.get_language()] *)
Definition translation_get_language : M I18n string :=
  fun s => (Ok (active_language s), s).

(** [request.LANGUAGE_CODE = language] *)
Definition set_LANGUAGE_CODE (language : string) : M I18n unit :=
  fun s => (Ok tt, mkI18n (active_language s) (Some language)).

Section Language.

(** [DjangoLanguageEnum.EN.value] of [backend.common.constants] *)
Variable EN : string.

(** [AppExceptionMiddleware.process_request] *)
Definition AppExceptionMiddleware_process_request (request : Request) : M I18n unit :=
  if _is_open_api_request request then
    translation_activate EN ;;
    language <- translation_get_language ;;
    set_LANGUAGE_CODE language
  else ret tt.

End Language.

(** ** Request id middleware *)

(** [s.lower()] on the letters A to Z *)
Definition lower_ascii (c : ascii) : ascii :=
  let n := nat_of_ascii c in
  if (65 <=? n)%nat && (n <=? 90)%nat then ascii_of_nat (n + 32) else c.

Fixpoint lower (s : string) : string :=
  match s with
  | EmptyString => EmptyString
  | String c rest => String (lower_ascii c) (lower rest)
  end.

(** A django response, as far as its headers go: they are kept under the
    lowered header name, with the name as it was written and the value. *)
Record HttpResponse : Type := mkHttpResponse {
  headers : list (string * (string * string));
  content : string
}.

(** [d[key] = value] on a dict: an existing key keeps its place. *)
Fixpoint dict_set {A : Type} (d : list (string * A)) (key : string) (value : A)
  : list (string * A) :=
  match d with
  | [] => [(key, value)]
  | (k, v) :: rest =>
      if String.eqb key k then (k, value) :: rest
      else (k, v) :: dict_set rest key value
  end.

(** [response[header] = value] *)
Definition set_header (response : HttpResponse) (header value : string) : HttpResponse :=
  mkHttpResponse (dict_set (headers response) (lower header) (header, value))
    (content response).

(** [response[header]] *)
Definition get_header (response : HttpResponse) (header : string) : Result string :=
  match lookup (lower header) (headers response) with
  | Some (_, value) => Ok value
  | None => Raise (KeyError header)
  end.

Section RequestIds.

(** The state behind [backend.common.local.local], with its three uses:
    [local.request = request], [local.get_http_request_id()] and
    [local.release()]. *)
Variable LocalState : Type.
Variable local_set_request : Request -> LocalState -> LocalState.
Variable local_get_http_request_id : LocalState -> string * LocalState.
Variable local_release : LocalState -> LocalState.

(** What the middleware acts on: [local] and the [request_id] attribute of
    the request. *)
Definition ProviderState : Type := (LocalState * option string)%type.

(** The rest of the middleware chain and the view. *)
Variable get_response : Request -> M ProviderState HttpResponse.

(** [local.request = request] *)
Definition set_local_request (request : Request) : M ProviderState unit :=
  fun s => (Ok tt, (local_set_request request (fst s), snd s)).

(** [local.get_http_request_id()] *)
Definition get_http_request_id : M ProviderState string :=
  fun s =>
    let (rid, local') := local_get_http_request_id (fst s) in
    (Ok rid, (local', snd s)).

(** [request.request_id = value] *)
Definition set_request_id (value : string) : M ProviderState unit :=
  fun s => (Ok tt, (fst s, Some value)).

(** [request.request_id] *)
Definition get_request_id : M ProviderState string :=
  fun s =>
    match snd s with
    | Some rid => (Ok rid, s)
    | None => (Raise (AttributeError "request_id"), s)
    end.

(** [local.release()] *)
Definition release : M ProviderState unit :=
  fun s => (Ok tt, (local_release (fst s), snd s)).

(** [RequestProvider.__call__] *)
Definition RequestProvider_call (request : Request) : M ProviderState HttpResponse :=
  set_local_request request ;;
  rid <- get_http_request_id ;;
  set_request_id rid ;;
  response <- get_response request ;;
  rid' <- get_request_id ;;
  let response := set_header response "X-Request-Id" rid' in
  release ;;
  ret response.

(** [RequestProvider.process_request] *)
Definition RequestProvider_process_request (request : Request) : M ProviderState unit :=
  set_local_request request ;;
  rid <- get_http_request_id ;;
  set_request_id rid.

(** [RequestProvider.process_response] *)
Definition RequestProvider_process_response (request : Request) (response : HttpResponse)
  : M ProviderState HttpResponse :=
  rid' <- get_request_id ;;
  let response := set_header response "X-Request-Id" rid' in
  release ;;
  ret response.

End RequestIds.

(** ** A reference configuration

    Concrete collaborators the worked examples below run the model with: a
    printer of values, an error table, the composition of a message by
    [format], a policy store that numbers the policies it stores, and the
    validated requests of the two scenarios.

    The printer [json_text] stands in for [json.dumps] and for [str] of a
    value that is not a string.  It writes JSON for text of printable ASCII
    characters, with the quote and the backslash escaped; it is not the
    text python's [str] gives for a list or a dict.  Every theorem is stated
    for any [json_dumps] and any [repr]; only the worked examples run with
    this printer. *)

Fixpoint escaped (s : string) : string :=
  match s with
  | EmptyString => EmptyString
  | String c rest =>
      if (nat_of_ascii c =? 34)%nat || (nat_of_ascii c =? 92)%nat
      then String (ascii_of_nat 92) (String c (escaped rest))
      else String c (escaped rest)
  end.

Definition quoted (s : string) : string :=
  String (ascii_of_nat 34)
    (String.append (escaped s) (String (ascii_of_nat 34) EmptyString)).

Fixpoint json_text (d : Detail) : string :=
  match d with
  | VNone => "null"
  | VStr s => quoted s
  | VList l =>
      String.append "[" (String.append (String.concat ", " (map json_text l)) "]")
  | VDict items =>
      String.append "{"
        (String.append
           (String.concat ", "
              (map (fun kv =>
                      String.append (quoted (fst kv))
                        (String.append ": " (json_text (snd kv))))
                 items))
           "}")
  end.

Definition sample_format_exc (exc : Exception) : string :=
  "Traceback (most recent call last)".

Definition sample_default_message (c : ErrorCode) : string :=
  match c with
  | UNAUTHORIZED => "unauthorized"
  | FORBIDDEN => "forbidden"
  | NOT_FOUND_ERROR => "not found"
  | METHOD_NOT_ALLOWED => "method not allowed"
  | JSON_FORMAT_ERROR => "json format error"
  | VALIDATE_ERROR => "validate error"
  | SYSTEM_ERROR => "system error"
  | OTHER _ => "error"
  end.

Definition sample_native_status (c : ErrorCode) : Z :=
  match c with
  | UNAUTHORIZED => 401
  | FORBIDDEN => 403
  | NOT_FOUND_ERROR => 404
  | METHOD_NOT_ALLOWED => 405
  | SYSTEM_ERROR => 500
  | _ => 400
  end.

Definition sample_format_message (default : string) (msg : Detail)
    (replace : option bool) : string :=
  match replace with
  | Some true => str json_text msg
  | _ => String.append default (String.append ": " (str json_text msg))
  end.

(** The detail [{"resources": {"0": {"id": ["required"]}}}], raised by a
    serializer whose [resources] is a list field over a child serializer. *)
Definition sample_detail : Detail :=
  VDict [("resources", VDict [("0", VDict [("id", VList [VStr "required"])])])].

Definition sample_child (id_fields : list (string * Field)) : Field :=
  Serializer "" (id_fields ++ [("type", OtherField "Type")]).

Definition sample_serializer (id_fields : list (string * Field)) : Field :=
  Serializer ""
    [("system", OtherField "System");
     ("resources", ListField "Resources" (sample_child id_fields))].

Definition sample_validation_error (id_fields : list (string * Field)) : Exception :=
  {| classes := [ValidationError];
     detail := sample_detail;
     serializer := Some (sample_serializer id_fields);
     code_exception := None |}.

Definition sample_open_request : Request :=
  {| path := "/api/v1/open/authorization/instance/";
     method := "POST";
     params := fun name => if String.eqb name "POST" then Some (VDict []) else None |}.

Definition sample_web_request : Request :=
  {| path := "/api/v1/web/policies/";
     method := "POST";
     params := fun name => if String.eqb name "POST" then Some (VDict []) else None |}.

(** A [PUT] request: django gives it a [body], and no attribute named after
    its method. *)
Definition sample_put_request : Request :=
  {| path := "/api/v1/web/policies/7/";
     method := "PUT";
     params := fun name => if String.eqb name "body" then Some (VStr "expired_at=0")
                           else None |}.

Definition sample_domain_failure : CodeException :=
  {| code := OTHER 1902409; message := "conflict"; status_code := 409 |}.

(** A store that hands out policy ids in sequence, one per policy, in the
    order of the policies. *)
Fixpoint store_policies (subject_ : Subject) (policy_list : list Policy) (next : Z)
  : list StoredPolicy :=
  match policy_list with
  | [] => []
  | p :: rest =>
      mkStoredPolicy next (policy_action_id p) subject_ (policy_expired_at p)
        :: store_policies subject_ rest (next + 1)
  end.

Definition sample_grant_or_revoke (operate_ : string) (subject_ : Subject)
    (policy_list : list Policy) (next : Z) : Result (list StoredPolicy) * Z :=
  (Ok (store_policies subject_ policy_list next),
   (next + Z.of_nat (List.length policy_list))%Z).

(** A store that accepts the call and returns no policy. *)
Definition empty_grant_or_revoke (operate_ : string) (subject_ : Subject)
    (policy_list : list Policy) (next : Z) : Result (list StoredPolicy) * Z :=
  (Ok [], next).

Definition sample_host : Detail :=
  VDict [("type", VStr "host"); ("id", VStr "123")].

Definition sample_auth_data : AuthData :=
  {| operate := "grant";
     subject := mkSubject "user" "alice";
     system := "bk_cmdb";
     expired_at := 4102444800;
     action := mkAction "view";
     resources := [sample_host] |}.

Definition sample_batch_data : AuthBatchData :=
  {| batch_operate := "grant";
     batch_subject := mkSubject "user" "bob";
     batch_system := "bk_cmdb";
     batch_expired_at := 4102444800;
     actions := [mkAction "view"; mkAction "edit"];
     batch_resources := [sample_host] |}.

Definition sample_slz {A : Type} (validated : A) (request_data : Detail) : Result A :=
  match request_data with
  | VDict (_ :: _) => Ok validated
  | _ => Raise (Raised "ValidationError")
  end.

Definition sample_valid (system_id : string) (resources : list Detail) : bool :=
  String.eqb system_id "bk_cmdb".

Definition sample_request_data : Detail :=
  VDict [("system", VStr "bk_cmdb")].

(** A [local] that holds the id the access layer gave, and a handler that
    answers with a stale [x-request-id] header of its own. *)
Definition sample_local_set_request (request : Request) (l : string) : string := l.

Definition sample_local_get_http_request_id (l : string) : string * string := (l, l).

Definition sample_local_release (l : string) : string := EmptyString.

Definition sample_get_response (request : Request) : M (ProviderState string) HttpResponse :=
  ret (mkHttpResponse
         [("content-type", ("Content-Type", "application/json"));
          ("x-request-id", ("x-request-id", "stale"))]
         "{}").

(** A list of lists of strings whose second item of the first row is bad:
    [{"matrix": {"0": {"1": ["bad"]}}}]. *)
Definition sample_matrix_error : Exception :=
  {| classes := [ValidationError];
     detail := VDict [("matrix", VDict [("0", VDict [("1", VList [VStr "bad"])])])];
     serializer :=
       Some (Serializer ""
               [("matrix", ListField "Matrix" (ListField "" (OtherField "")))]);
     code_exception := None |}.

(** * Properties *)

Unset Implicit Arguments.

(** ** Monad and container facts *)

Lemma bind_ret {S A B : Type} (a : A) (k : A -> M S B) (s : S) :
  bind (ret a) k s = k a s.
Proof. reflexivity. Qed.

Lemma bind_lift_Ok {S A B : Type} (a : A) (k : A -> M S B) (s : S) :
  bind (lift (Ok a)) k s = k a s.
Proof. reflexivity. Qed.

Lemma bind_lift_Raise {S A B : Type} (e : PyError) (k : A -> M S B) (s : S) :
  bind (lift (Raise e)) k s = (Raise e, s).
Proof. reflexivity. Qed.

Lemma depth_dict_head (key : string) (error : Detail) (rest : list (string * Detail)) :
  depth error < depth (VDict ((key, error) :: rest)).
Proof. simpl. lia. Qed.

Lemma depth_list_head (x : Detail) (rest : list Detail) :
  depth x < depth (VList (x :: rest)).
Proof. simpl. lia. Qed.

Lemma depth_new_ValidationError (d : Detail) :
  depth (detail (new_ValidationError d)) <= Nat.max 1 (depth d).
Proof. destruct d; simpl; lia. Qed.

Lemma detail_set_serializer (exc : Exception) (f : Field) :
  detail (set_serializer exc f) = detail exc.
Proof. reflexivity. Qed.

Lemma serializer_set_serializer (exc : Exception) (f : Field) :
  serializer (set_serializer exc f) = Some f.
Proof. reflexivity. Qed.

Lemma contains_key_lookup {A : Type} (key : string) (d : list (string * A)) :
  contains_key key d = true <-> exists v, lookup key d = Some v.
Proof.
  unfold contains_key. destruct (lookup key d) as [v|].
  - split; [intros _; now exists v | reflexivity].
  - split; [discriminate | intros [v Hv]; discriminate].
Qed.

Lemma isinstance_In (exc : Exception) (cls : ExcClass) :
  isinstance exc cls = true <-> In cls (classes exc).
Proof.
  unfold isinstance. rewrite existsb_exists. split.
  - intros [c [Hin Heq]]. destruct cls, c; simpl in Heq; try discriminate; exact Hin.
  - intros Hin. exists cls. split; [exact Hin | destruct cls; reflexivity].
Qed.

(** ** The recursion of [_one_line_error] *)

Section OneLineError.

Variable NON_FIELD_ERRORS_KEY : string.
Variable repr : Detail -> string.

Local Abbreviation one_line_rec := (_one_line_error_rec NON_FIELD_ERRORS_KEY repr).
Local Abbreviation one_line := (_one_line_error NON_FIELD_ERRORS_KEY repr).
Local Abbreviation leaf := (one_line_leaf NON_FIELD_ERRORS_KEY repr).

(** Any two bounds above the depth of the detail give the same result:
    the bound is never what stops the recursion. *)
Lemma one_line_rec_bound (n : nat) :
  forall (m : nat) (exc : Exception),
    depth (detail exc) < n -> depth (detail exc) < m ->
    one_line_rec n exc = one_line_rec m exc.
Proof.
  induction n as [|n IH]; intros m exc Hn Hm; [lia|].
  destruct m as [|m]; [lia|].
  simpl.
  destruct (detail exc) as [| s | l | items] eqn:Hd; try reflexivity.
  destruct items as [|[key error] rest]; [reflexivity|].
  simpl.
  pose proof (depth_dict_head key error rest) as Herr.
  destruct error as [| s | l | eitems] eqn:He; try reflexivity.
  destruct (serializer exc) as [ser|]; [|reflexivity].
  assert (Hself : forall f,
             one_line_rec n (set_serializer (new_ValidationError (VDict eitems)) f)
             = one_line_rec m (set_serializer (new_ValidationError (VDict eitems)) f)).
  { intros f. apply IH; rewrite detail_set_serializer; simpl in *; lia. }
  assert (Hchild : forall f,
             match next_iter_items (VDict eitems) with
             | Ok (_, c) => one_line_rec n (set_serializer (new_ValidationError c) f)
             | Raise e => Raise e
             end
             = match next_iter_items (VDict eitems) with
               | Ok (_, c) => one_line_rec m (set_serializer (new_ValidationError c) f)
               | Raise e => Raise e
               end).
  { intros f. destruct eitems as [|[k c] erest]; [reflexivity|].
    simpl next_iter_items. cbv iota.
    pose proof (depth_dict_head k c erest) as Hc.
    pose proof (depth_new_ValidationError c) as Hv.
    apply IH; rewrite detail_set_serializer; lia. }
  destruct (if contains_key key (getattr_fields ser)
            then lookup key (getattr_fields ser) else None) as [[lb fc | lb fs | lb]|].
  - apply Hchild.
  - apply Hself.
  - destruct ser; try reflexivity. apply Hself.
  - destruct ser; try reflexivity. apply Hself.
Qed.

Lemma one_line_unfold (n : nat) (exc : Exception) :
  depth (detail exc) < n -> one_line exc = one_line_rec n exc.
Proof.
  intros Hn. unfold _one_line_error. apply one_line_rec_bound; lia.
Qed.

(** The recursion never runs out of its bound. *)
Lemma one_line_rec_total (n : nat) :
  forall exc : Exception,
    depth (detail exc) < n -> one_line_rec n exc <> Raise RecursionError.
Proof.
  induction n as [|n IH]; intros exc Hn; [lia|].
  simpl.
  destruct (detail exc) as [| s | l | items] eqn:Hd; try discriminate.
  { destruct l; discriminate. }
  destruct items as [|[key error] rest]; [discriminate|].
  simpl.
  pose proof (depth_dict_head key error rest) as Herr.
  assert (Hleaf : forall e, leaf exc key e <> Raise RecursionError).
  { intros e. unfold one_line_leaf.
    destruct (String.eqb key NON_FIELD_ERRORS_KEY); [discriminate|].
    destruct (serializer exc) as [[? ? | ? fs | ?]|]; simpl; try discriminate.
    unfold getitem. destruct (contains_key key fs); [|discriminate].
    destruct (lookup key fs); discriminate. }
  destruct error as [| s | l | eitems] eqn:He; try apply Hleaf.
  { destruct l; simpl; [discriminate | apply Hleaf]. }
  destruct (serializer exc) as [ser|]; [|apply Hleaf].
  assert (Hself : forall f,
             one_line_rec n (set_serializer (new_ValidationError (VDict eitems)) f)
             <> Raise RecursionError).
  { intros f. apply IH; rewrite detail_set_serializer; simpl in *; lia. }
  assert (Hchild : forall f,
             match next_iter_items (VDict eitems) with
             | Ok (_, c) => one_line_rec n (set_serializer (new_ValidationError c) f)
             | Raise e => Raise e
             end <> Raise RecursionError).
  { intros f. destruct eitems as [|[k c] erest]; [discriminate|].
    simpl next_iter_items. cbv iota.
    pose proof (depth_dict_head k c erest) as Hc.
    pose proof (depth_new_ValidationError c) as Hv.
    apply IH; rewrite detail_set_serializer; lia. }
  destruct (if contains_key key (getattr_fields ser)
            then lookup key (getattr_fields ser) else None) as [[lb fc | lb fs | lb]|].
  - apply Hchild.
  - apply Hself.
  - destruct ser; try apply Hleaf. apply Hself.
  - destruct ser; try apply Hleaf. apply Hself.
Qed.

Lemma one_line_total (exc : Exception) :
  one_line exc <> Raise RecursionError.
Proof. unfold _one_line_error. apply one_line_rec_total. lia. Qed.

(** One step of the recursion on a nested error under a [ListField]. *)
Lemma one_line_ListField (exc : Exception) (ser : Field) (key k l : string)
    (c : Field) (nested : Detail) (rest erest : list (string * Detail)) :
  detail exc = VDict ((key, VDict ((k, nested) :: erest)) :: rest) ->
  serializer exc = Some ser ->
  lookup key (getattr_fields ser) = Some (ListField l c) ->
  one_line exc = one_line (set_serializer (new_ValidationError nested) c).
Proof.
  intros Hd Hs Hf.
  pose proof (depth_new_ValidationError nested) as Hv.
  pose proof (depth_dict_head k nested erest) as Hn.
  pose proof (depth_dict_head key (VDict ((k, nested) :: erest)) rest) as He.
  rewrite <- Hd in He.
  set (n := S (depth (detail exc))).
  rewrite (one_line_unfold (S n) exc) by (subst n; lia).
  rewrite (one_line_unfold n (set_serializer (new_ValidationError nested) c))
    by (rewrite detail_set_serializer; subst n; lia).
  clearbody n. cbn [_one_line_error_rec]. rewrite Hd, Hs. cbn [next_iter_items].
  unfold contains_key. rewrite Hf. reflexivity.
Qed.

(** One step of the recursion on a nested error under a nested
    [Serializer]. *)
Lemma one_line_Serializer (exc : Exception) (ser : Field) (key l : string)
    (fs : list (string * Field)) (eitems rest : list (string * Detail)) :
  detail exc = VDict ((key, VDict eitems) :: rest) ->
  serializer exc = Some ser ->
  lookup key (getattr_fields ser) = Some (Serializer l fs) ->
  one_line exc
  = one_line (set_serializer (new_ValidationError (VDict eitems)) (Serializer l fs)).
Proof.
  intros Hd Hs Hf.
  pose proof (depth_dict_head key (VDict eitems) rest) as He.
  rewrite <- Hd in He.
  set (n := S (depth (detail exc))).
  rewrite (one_line_unfold (S n) exc) by (subst n; lia).
  rewrite (one_line_unfold n
             (set_serializer (new_ValidationError (VDict eitems)) (Serializer l fs)))
    by (rewrite detail_set_serializer; subst n; simpl in *; lia).
  clearbody n. cbn [_one_line_error_rec]. rewrite Hd, Hs. cbn [next_iter_items].
  unfold contains_key. rewrite Hf. reflexivity.
Qed.

(** A leaf error: the first message of the first field, under the label
    of the field when the schema has the field, under the key otherwise. *)
Lemma one_line_leaf_field (exc : Exception) (l key m : string)
    (fs : list (string * Field)) (ms : list Detail) (rest : list (string * Detail)) :
  detail exc = VDict ((key, VList (VStr m :: ms)) :: rest) ->
  serializer exc = Some (Serializer l fs) ->
  key <> NON_FIELD_ERRORS_KEY ->
  one_line exc
  = Ok (VStr (String.append
                (match lookup key fs with Some f => label f | None => key end)
                (String.append ": " m))).
Proof.
  intros Hd Hs Hk.
  unfold _one_line_error. cbn [_one_line_error_rec]. rewrite Hd. simpl.
  unfold one_line_leaf. rewrite Hs.
  destruct (String.eqb_spec key NON_FIELD_ERRORS_KEY) as [E|_]; [contradiction|].
  simpl. unfold contains_key, getitem.
  destruct (lookup key fs); reflexivity.
Qed.

(** C2: the first offending field decides the line.  For an error whose
    first entry is [key: error], raised with a [Serializer] schema attached:
    when the schema declares [key] as a [ListField] and [error] is a nested
    mapping, the line is that of the first nested error under the child of
    the list field; when it declares [key] as a nested [Serializer], the
    line is that of [error] under that serializer; when [error] is a list
    of messages and [key] is not the non-field-errors key, the line is
    [label: message] with the label the schema registers for [key], and
    [key: message] when it registers none.  In particular the detail
    [{"resources": {"0": {"id": ["required"]}}}], with [resources] a list
    field over a child serializer, gives ["id: required"], or
    ["<label>: required"] when the child registers a label for [id]. *)
Theorem one_line_error_first_offending_field
    (exc : Exception) (slabel key : string) (fs : list (string * Field))
    (error : Detail) (rest : list (string * Detail)) :
  detail exc = VDict ((key, error) :: rest) ->
  serializer exc = Some (Serializer slabel fs) ->
  (forall (l k : string) (c : Field) (nested : Detail) (erest : list (string * Detail)),
      lookup key fs = Some (ListField l c) ->
      error = VDict ((k, nested) :: erest) ->
      one_line exc = one_line (set_serializer (new_ValidationError nested) c))
  /\ (forall (l : string) (fs' : list (string * Field)) (eitems : list (string * Detail)),
         lookup key fs = Some (Serializer l fs') ->
         error = VDict eitems ->
         one_line exc
         = one_line (set_serializer (new_ValidationError error) (Serializer l fs')))
  /\ (forall (m : string) (ms : list Detail),
         error = VList (VStr m :: ms) ->
         key <> NON_FIELD_ERRORS_KEY ->
         one_line exc
         = Ok (VStr (String.append
                       (match lookup key fs with Some f => label f | None => key end)
                       (String.append ": " m))))
  /\ (forall (l cl : string) (cfs : list (string * Field)),
         key = "resources" ->
         error = VDict [("0", VDict [("id", VList [VStr "required"])])] ->
         lookup "resources" fs = Some (ListField l (Serializer cl cfs)) ->
         "id" <> NON_FIELD_ERRORS_KEY ->
         one_line exc
         = Ok (VStr (String.append
                       (match lookup "id" cfs with Some f => label f | None => "id" end)
                       ": required"))).
Proof.
  intros Hd Hs. repeat split.
  - intros l k c nested erest Hf He. subst error.
    eapply one_line_ListField; eauto.
  - intros l fs' eitems Hf He. subst error.
    eapply one_line_Serializer; eauto.
  - intros m ms He Hk. subst error.
    eapply one_line_leaf_field; eauto.
  - intros l cl cfs Hk He Hf Hid. subst key error.
    rewrite (one_line_ListField exc (Serializer slabel fs) _ _ l (Serializer cl cfs)
               _ _ _ Hd Hs Hf).
    apply (one_line_leaf_field _ cl _ _ cfs [] []); auto.
Qed.

(** C10: the extraction needs a non-empty detail.  On a non-empty list it
    returns the first element.  On a non-empty mapping it descends into the
    first entry: its result is that of the mapping cut down to its first
    entry, and when that entry holds a non-empty list of messages it
    returns, with no schema attached, the first message itself under the
    non-field-errors key and [key: first message] under any other key, and,
    with a schema attached, what the labelling step gives for that key and
    that message.  On an empty list and on an empty mapping it returns
    nothing: it raises ([IndexError], [StopIteration]). *)
Theorem one_line_error_needs_nonempty_detail
    (cls : list ExcClass) (ser : option Field) (ce : option CodeException) :
  (forall (x : Detail) (rest : list Detail),
      one_line (mkException cls (VList (x :: rest)) ser ce) = Ok x)
  /\ (forall (kv : string * Detail) (rest : list (string * Detail)),
         one_line (mkException cls (VDict (kv :: rest)) ser ce)
         = one_line (mkException cls (VDict [kv]) ser ce))
  /\ (forall (key : string) (m : Detail) (ms : list Detail)
             (rest : list (string * Detail)),
         one_line (mkException cls (VDict ((key, VList (m :: ms)) :: rest)) None ce)
         = Ok (if String.eqb key NON_FIELD_ERRORS_KEY then m
               else VStr (String.append key (String.append ": " (str repr m)))))
  /\ (forall (key : string) (m : Detail) (ms : list Detail)
             (rest : list (string * Detail)),
         one_line (mkException cls (VDict ((key, VList (m :: ms)) :: rest)) ser ce)
         = leaf (mkException cls (VDict ((key, VList (m :: ms)) :: rest)) ser ce) key m)
  /\ one_line (mkException cls (VList []) ser ce) = Raise IndexError
  /\ one_line (mkException cls (VDict []) ser ce) = Raise StopIteration.
Proof.
  repeat split; try reflexivity.
  2:{ intros key m ms rest. unfold _one_line_error. cbn [_one_line_error_rec].
      simpl. unfold one_line_leaf. simpl.
      destruct (String.eqb key NON_FIELD_ERRORS_KEY); reflexivity. }
  intros [key error] rest.
  set (big := mkException cls (VDict ((key, error) :: rest)) ser ce).
  set (small := mkException cls (VDict [(key, error)]) ser ce).
  assert (Hle : depth (detail small) <= depth (detail big)) by (simpl; lia).
  rewrite (one_line_unfold (S (depth (detail big))) big) by lia.
  rewrite (one_line_unfold (S (depth (detail big))) small) by lia.
  reflexivity.
Qed.

End OneLineError.

(** ** The error middleware *)

Lemma ErrorCode_eqb_eq (a b : ErrorCode) : ErrorCode_eqb a b = true <-> a = b.
Proof.
  split.
  - destruct a, b; simpl; intros H; try discriminate; try reflexivity.
    apply Z.eqb_eq in H. now subst.
  - intros ->. destruct b; simpl; try reflexivity. apply Z.eqb_refl.
Qed.

Section MiddlewareProperties.

Variable NON_FIELD_ERRORS_KEY : string.
Variable repr : Detail -> string.
Variable json_dumps : Detail -> string.
Variable format_exc : Exception -> string.
Variable default_message : ErrorCode -> string.
Variable native_status : ErrorCode -> Z.
Variable format_message : string -> Detail -> option bool -> string.

Local Abbreviation errors := (error_codes default_message native_status).
Local Abbreviation fmt := (format format_message).
Local Abbreviation ignored := (ignore_errors default_message native_status).
Local Abbreviation one_line := (_one_line_error NON_FIELD_ERRORS_KEY repr).
Local Abbreviation exception_to_error :=
  (_exception_to_error NON_FIELD_ERRORS_KEY repr json_dumps
     default_message native_status format_message).
Local Abbreviation process :=
  (process_exception NON_FIELD_ERRORS_KEY repr json_dumps format_exc
     default_message native_status format_message).

Lemma isinstance_ignore_errors (error : CodeException) :
  isinstance_error error ignored = true
  <-> In (code error) [UNAUTHORIZED; FORBIDDEN; NOT_FOUND_ERROR; SYSTEM_ERROR].
Proof.
  unfold isinstance_error, ignore_errors. simpl.
  rewrite !orb_true_iff, !ErrorCode_eqb_eq.
  intuition (try congruence; auto).
Qed.

(** The events of the classifier are appended to the trace it starts
    from. *)
Lemma exception_to_error_trace (request : Request) (exc : Exception) (tr : Trace) :
  exception_to_error request exc tr
  = (fst (exception_to_error request exc []), tr ++ snd (exception_to_error request exc [])).
Proof.
  unfold _exception_to_error.
  destruct (isinstance exc NotAuthenticated || isinstance exc AuthenticationFailed);
    [simpl; now rewrite app_nil_r|].
  destruct (isinstance exc PermissionDenied); [simpl; now rewrite app_nil_r|].
  destruct (isinstance exc MethodNotAllowed); [simpl; now rewrite app_nil_r|].
  destruct (isinstance exc ParseError); [simpl; now rewrite app_nil_r|].
  destruct (isinstance exc ValidationError).
  - destruct (_is_open_api_request request); [simpl; now rewrite app_nil_r|].
    unfold bind, lift. destruct (_one_line_error _ _ exc); simpl; now rewrite app_nil_r.
  - destruct (code_exception exc); simpl; [|now rewrite app_nil_r].
    unfold bind, set_rollback, log_api_error_trace, emit, ret. simpl.
    now rewrite <- app_assoc.
Qed.

(** C7: a not-found failure ([Http404]) is left as it is.  Whatever else
    the exception is an instance of, [process_exception] answers [None]
    (no response is built) and performs no effect: the test comes before
    every other category. *)
Theorem http404_passes_through (request : Request) (exc : Exception) (tr : Trace) :
  isinstance exc Http404 = true ->
  process request exc tr = (Ok None, tr).
Proof.
  intros H. unfold process_exception. rewrite H. reflexivity.
Qed.

(** C8: an unauthenticated failure ([NotAuthenticated] or
    [AuthenticationFailed]) is classified as [UNAUTHORIZED], without any
    effect, whatever else the exception is an instance of: forbidden,
    method-not-allowed, parse, validation or domain failure. *)
Theorem unauthenticated_is_UNAUTHORIZED (request : Request) (exc : Exception) (tr : Trace) :
  isinstance exc NotAuthenticated = true \/ isinstance exc AuthenticationFailed = true ->
  exception_to_error request exc tr = (Ok (Some (errors UNAUTHORIZED)), tr)
  /\ code (errors UNAUTHORIZED) = UNAUTHORIZED.
Proof.
  intros H. split; [|reflexivity].
  unfold _exception_to_error.
  replace (isinstance exc NotAuthenticated || isinstance exc AuthenticationFailed)
    with true; [reflexivity|].
  symmetry. apply orb_true_iff. exact H.
Qed.

(** The field-validation category when the extraction returns: a
    [ValidationError] that is none of the categories checked before it is
    classified as [VALIDATE_ERROR].
    On an open-API request the error is formatted, with [replace=True],
    from the JSON text of the whole detail; on any other request it is
    formatted from the line that [_one_line_error] extracts. *)
Theorem validation_error_message (request : Request) (exc : Exception) (tr : Trace) :
  isinstance exc NotAuthenticated = false ->
  isinstance exc AuthenticationFailed = false ->
  isinstance exc PermissionDenied = false ->
  isinstance exc MethodNotAllowed = false ->
  isinstance exc ParseError = false ->
  isinstance exc ValidationError = true ->
  (_is_open_api_request request = true ->
   exception_to_error request exc tr
   = (Ok (Some (fmt (errors VALIDATE_ERROR)
                       (VStr (json_dumps (detail exc))) (Some true))), tr))
  /\ (forall line : Detail,
         _is_open_api_request request = false ->
         one_line exc = Ok line ->
         exception_to_error request exc tr
         = (Ok (Some (fmt (errors VALIDATE_ERROR) line None)), tr))
  /\ (forall (error : CodeException) (tr' : Trace),
         exception_to_error request exc tr = (Ok (Some error), tr') ->
         code error = VALIDATE_ERROR).
Proof.
  intros H1 H2 H3 H4 H5 H6.
  unfold _exception_to_error. rewrite H1, H2, H3, H4, H5, H6. simpl.
  repeat split.
  - intros Ho. rewrite Ho. reflexivity.
  - intros line Ho Hl. rewrite Ho. unfold bind, lift. rewrite Hl. reflexivity.
  - intros error tr'. destruct (_is_open_api_request request).
    + intros E. inversion E. reflexivity.
    + unfold bind, lift. destruct (_one_line_error _ _ exc); intros E; inversion E.
      reflexivity.
Qed.

(** C5: a recognized domain failure (a [CodeException] that is none of
    the framework categories) is classified as itself, same code and same
    message, after exactly two effects, in this order: the rollback and
    the debug trace.  The whole of [process_exception] adds no effect to
    these two (no logging, no error reporting) and answers with the body
    of that same error. *)
Theorem domain_failure_passes_through
    (request : Request) (exc : Exception) (e : CodeException) (tr : Trace) :
  (forall cls : ExcClass, isinstance exc cls = false) ->
  code_exception exc = Some e ->
  exception_to_error request exc tr
  = (Ok (Some e), tr ++ [SetRollback; LogApiErrorTrace request None])
  /\ exists status_code : Z,
      process request exc tr
      = (Ok (Some (mkResponse (as_json e) status_code)),
         tr ++ [SetRollback; LogApiErrorTrace request None]).
Proof.
  intros Hc He.
  assert (Hx : exception_to_error request exc tr
               = (Ok (Some e), tr ++ [SetRollback; LogApiErrorTrace request None])).
  { unfold _exception_to_error. rewrite !Hc, He. simpl.
    unfold bind, set_rollback, log_api_error_trace, emit, ret. simpl.
    now rewrite <- app_assoc. }
  split; [exact Hx|].
  unfold process_exception. rewrite Hc.
  unfold bind at 1. rewrite Hx. unfold bind, ret. simpl.
  eexists. reflexivity.
Qed.


(** C1: the status of the response.  For a failure that is not left to
    the framework and that the classifier settles to [error] (its own
    result, or [SYSTEM_ERROR] when it has none), [process_exception]
    answers with the body of [error], its code and its message; the status
    is 200 when the request is an open-API request and the code of [error]
    is none of [UNAUTHORIZED], [FORBIDDEN], [NOT_FOUND_ERROR],
    [SYSTEM_ERROR], and it is the status of [error] otherwise. *)
Theorem open_api_status_override
    (request : Request) (exc : Exception) (tr tr1 : Trace)
    (classified : option CodeException) :
  isinstance exc Http404 = false ->
  exception_to_error request exc tr = (Ok classified, tr1) ->
  let error := match classified with
               | Some e => e
               | None => errors SYSTEM_ERROR
               end in
  exists (response : Response (ErrorCode * string)) (tr' : Trace),
    process request exc tr = (Ok (Some response), tr')
    /\ data response = (code error, message error)
    /\ (_is_open_api_request request = true ->
        ~ In (code error) [UNAUTHORIZED; FORBIDDEN; NOT_FOUND_ERROR; SYSTEM_ERROR] ->
        status response = 200%Z)
    /\ (_is_open_api_request request = false
        \/ In (code error) [UNAUTHORIZED; FORBIDDEN; NOT_FOUND_ERROR; SYSTEM_ERROR] ->
        status response = status_code error).
Proof.
  intros H404 Hx error.
  assert (Hstatus : forall st : Z,
             st = (if _is_open_api_request request
                      && negb (isinstance_error error ignored)
                   then HTTP_200_OK else status_code error) ->
             (_is_open_api_request request = true ->
              ~ In (code error) [UNAUTHORIZED; FORBIDDEN; NOT_FOUND_ERROR; SYSTEM_ERROR] ->
              st = 200%Z)
             /\ (_is_open_api_request request = false
                 \/ In (code error) [UNAUTHORIZED; FORBIDDEN; NOT_FOUND_ERROR; SYSTEM_ERROR] ->
                 st = status_code error)).
  { intros st ->. pose proof (isinstance_ignore_errors error) as Hi.
    destruct (isinstance_error error ignored).
    - rewrite andb_false_r. split; [|reflexivity].
      intros _ Hn. exfalso. apply Hn, Hi. reflexivity.
    - rewrite andb_true_r. split.
      + intros ->. reflexivity.
      + intros [-> | Hin]; [reflexivity|].
        apply Hi in Hin. discriminate. }
  unfold process_exception. rewrite H404. unfold bind at 1. rewrite Hx.
  destruct classified as [e|]; subst error.
  - eexists. eexists. split; [reflexivity|]. split; [reflexivity|].
    apply Hstatus. reflexivity.
  - eexists. eexists. split; [reflexivity|]. split; [reflexivity|].
    apply Hstatus. reflexivity.
Qed.

(** C6, as amended: an unexpected failure, one that matches no category, is
    answered with the body of the generic [SYSTEM_ERROR], which holds
    nothing of the exception, after three effects: the error log, the
    debug trace, and the notification of the error-reporting service.  The
    log holds the stack trace, the path and the method of the request, and
    the JSON text of the attribute of the request that is named after its
    method ([request.GET], [request.POST]), which is [None] when the request
    has no such attribute; the body of the request is not read.
    Conversely, when [process_exception] logs an error or notifies the
    error-reporting service, the failure is an unexpected one. *)
Theorem unexpected_failure_is_SYSTEM_ERROR (request : Request) (exc : Exception) :
  ((forall cls : ExcClass, isinstance exc cls = false) ->
   code_exception exc = None ->
   forall tr : Trace,
     process request exc tr
     = (Ok (Some (mkResponse (SYSTEM_ERROR, default_message SYSTEM_ERROR)
                    (native_status SYSTEM_ERROR))),
        tr ++ [LoggerError (format_exc exc) (path request) (method request)
                 (json_dumps
                    (match params request (method request) with
                     | Some parameters => parameters
                     | None => VNone
                     end));
               LogApiErrorTrace request (Some true);
               CaptureException exc]))
  /\ (forall (tr : Trace) (ev : Event),
         In ev (snd (process request exc tr)) ->
         ~ In ev tr ->
         (exists stack url m p, ev = LoggerError stack url m p)
         \/ (exists x, ev = CaptureException x)
         \/ (exists r, ev = LogApiErrorTrace r (Some true)) ->
         (forall cls : ExcClass, isinstance exc cls = false)
         /\ code_exception exc = None).
Proof.
  split.
  - intros Hc He tr.
    unfold process_exception, _exception_to_error. rewrite !Hc, He. simpl.
    unfold bind, logger_error, log_api_error_trace, capture_exception, emit, ret.
    simpl. rewrite <- !app_assoc. simpl.
    unfold HTTP_200_OK. rewrite andb_false_r. reflexivity.
  - intros tr ev Hin Hnew Hev.
    unfold process_exception in Hin.
    destruct (isinstance exc Http404) eqn:H404.
    { simpl in Hin. contradiction. }
    unfold bind at 1 in Hin.
    rewrite exception_to_error_trace in Hin.
    assert (Hcat :
              (fst (exception_to_error request exc []) = Ok None
               /\ snd (exception_to_error request exc []) = []
               /\ (forall cls : ExcClass, isinstance exc cls = false)
               /\ code_exception exc = None)
              \/ (fst (exception_to_error request exc []) <> Ok None
                  /\ forall x, In x (snd (exception_to_error request exc [])) ->
                               x = SetRollback \/ x = LogApiErrorTrace request None)).
    { unfold _exception_to_error.
      destruct (isinstance exc NotAuthenticated) eqn:C1;
        [right; simpl; split; [discriminate | contradiction]|].
      destruct (isinstance exc AuthenticationFailed) eqn:C2;
        [right; simpl; split; [discriminate | contradiction]|].
      destruct (isinstance exc PermissionDenied) eqn:C3;
        [right; simpl; split; [discriminate | contradiction]|].
      destruct (isinstance exc MethodNotAllowed) eqn:C4;
        [right; simpl; split; [discriminate | contradiction]|].
      destruct (isinstance exc ParseError) eqn:C5;
        [right; simpl; split; [discriminate | contradiction]|].
      destruct (isinstance exc ValidationError) eqn:C6.
      - right. simpl. destruct (_is_open_api_request request).
        + simpl. split; [discriminate | contradiction].
        + unfold bind, lift. destruct (_one_line_error _ _ exc); simpl;
            (split; [discriminate | contradiction]).
      - simpl. destruct (code_exception exc) as [e|].
        + right. simpl. split; [discriminate|]. intros x [<- | [<- | []]]; auto.
        + left. simpl. repeat split; auto.
          intros cls. destruct cls; assumption. }
    destruct Hcat as [(_ & _ & Hcls & Hce) | [Hne Hevs]]; [split; assumption|].
    exfalso.
    destruct (exception_to_error request exc []) as [[[e|] | err] evs] eqn:Hx;
      simpl in Hin, Hne, Hevs.
    + unfold bind, ret in Hin. simpl in Hin.
      apply in_app_or in Hin. destruct Hin as [Hin | Hin]; [contradiction|].
      destruct (Hevs ev Hin) as [-> | ->];
        destruct Hev as [(? & ? & ? & ? & E) | [(? & E) | (? & E)]]; discriminate.
    + contradiction.
    + simpl in Hin.
      apply in_app_or in Hin. destruct Hin as [Hin | Hin]; [contradiction|].
      destruct (Hevs ev Hin) as [-> | ->];
        destruct Hev as [(? & ? & ? & ? & E) | [(? & E) | (? & E)]]; discriminate.
Qed.

End MiddlewareProperties.

(** C4, the failing input: a field-validation failure that gets no
    [VALIDATE_ERROR].  The exception is the [ValidationError] of a serializer
    whose [matrix] is a list field of list fields, with the detail
    [{"matrix": {"0": {"1": ["bad"]}}}]; it is an instance of no category
    checked before the validation one.  On a request that is not an open-API
    request the classifier returns no error at all: it raises
    [AttributeError], since the label lookup of [_one_line_error] reads
    [exc.serializer.fields] of a list field, and [process_exception] raises
    with it.  On an open-API request the same exception is classified as
    [VALIDATE_ERROR]. *)
Theorem validation_failure_left_unclassified
    (repr json_dumps : Detail -> string) (format_exc : Exception -> string)
    (default_message : ErrorCode -> string) (native_status : ErrorCode -> Z)
    (format_message : string -> Detail -> option bool -> string) (tr : Trace) :
  isinstance sample_matrix_error ValidationError = true
  /\ (forall cls : ExcClass,
         cls <> ValidationError -> isinstance sample_matrix_error cls = false)
  /\ _is_open_api_request sample_web_request = false
  /\ _exception_to_error "non_field_errors" repr json_dumps default_message
       native_status format_message sample_web_request sample_matrix_error tr
     = (Raise (AttributeError "fields"), tr)
  /\ process_exception "non_field_errors" repr json_dumps format_exc default_message
       native_status format_message sample_web_request sample_matrix_error tr
     = (Raise (AttributeError "fields"), tr)
  /\ _exception_to_error "non_field_errors" repr json_dumps default_message
       native_status format_message sample_open_request sample_matrix_error tr
     = (Ok (Some (format format_message
                    (error_codes default_message native_status VALIDATE_ERROR)
                    (VStr (json_dumps (detail sample_matrix_error))) (Some true))),
        tr).
Proof.
  repeat split.
  intros cls Hcls. destruct cls; try reflexivity. contradiction.
Qed.

(** ** The open authorization views *)

Section ViewProperties.

Variable Store : Type.
Variable AuthInstanceSLZ AuthPathSLZ : Detail -> Result AuthData.
Variable AuthBatchInstanceSLZ AuthBatchPathSLZ : Detail -> Result AuthBatchData.
Variable valid_instances valid_paths : string -> list Detail -> bool.
Variable grant_or_revoke :
  string -> Subject -> list Policy -> Store -> Result (list StoredPolicy) * Store.

Local Abbreviation instance_post :=
  (AuthInstanceView_post AuthInstanceSLZ valid_instances grant_or_revoke).
Local Abbreviation path_post :=
  (AuthPathView_post AuthPathSLZ valid_paths grant_or_revoke).
Local Abbreviation batch_instance_post :=
  (AuthBatchInstanceView_post AuthBatchInstanceSLZ valid_instances grant_or_revoke).
Local Abbreviation batch_path_post :=
  (AuthBatchPathView_post AuthBatchPathSLZ valid_paths grant_or_revoke).

(** The policies of a batch request: one per action, in request order. *)
Lemma fan_out_action_ids (system_id : string) (action_ids : list string)
    (resources : list Detail) (expired_at : Z) :
  map policy_action_id
    (map (fun a => mkPolicy system_id a resources expired_at) action_ids)
  = action_ids.
Proof.
  induction action_ids as [|a rest IH]; simpl; [reflexivity|].
  now rewrite IH.
Qed.

Lemma batch_body_action_ids (policies : list StoredPolicy) :
  map (fun b => id (body_action b))
    (map (fun p => mkActionPolicyBody (mkAction (action_id p)) (policy_id p)) policies)
  = map action_id policies.
Proof.
  induction policies as [|p rest IH]; simpl; [reflexivity|].
  now rewrite IH.
Qed.

(** The tail of the two batch views, from the store call on. *)
Lemma batch_tail (data : AuthBatchData) (policy_list : list Policy)
    (policies : list StoredPolicy) (st : ViewState Store) (store' : Store) :
  grant_or_revoke (batch_operate data) (batch_subject data) policy_list (fst st)
  = (Ok policies, store') ->
  (policies <-
     call_grant_or_revoke grant_or_revoke (batch_operate data) (batch_subject data)
       policy_list ;;
   audit_context_setter (batch_operate data) (batch_subject data) (batch_system data)
     policies ;;
   ret (Response_ok
          (map (fun p => mkActionPolicyBody (mkAction (action_id p)) (policy_id p))
             policies))) st
  = (Ok (Response_ok
           (map (fun p => mkActionPolicyBody (mkAction (action_id p)) (policy_id p))
              policies)),
     (store',
      snd st ++ [mkAuditContext (batch_operate data) (batch_subject data)
                   (batch_system data) policies])).
Proof.
  intros Hg. unfold bind, call_grant_or_revoke. rewrite Hg. reflexivity.
Qed.

(** C3: the batch endpoints answer one element per requested action, in
    request order.  Provided [grant_or_revoke] returns the stored policies
    in the order of the policies it is given, a batch request that passes
    validation and that the store accepts is answered, by the instance
    view and by the path view alike, with a list of [{action: {id},
    policy_id}] built from the stored policies, of as many elements as
    actions were requested, whose action ids are the requested action ids
    in the same order. *)
Theorem batch_response_in_request_order
    (request_data : Detail) (data : AuthBatchData) (st : ViewState Store)
    (policies : list StoredPolicy) (store' : Store) :
  (forall operate_ subject_ policy_list store0 stored store1,
      grant_or_revoke operate_ subject_ policy_list store0 = (Ok stored, store1) ->
      map action_id stored = map policy_action_id policy_list) ->
  grant_or_revoke (batch_operate data) (batch_subject data)
    (map (fun a => mkPolicy (batch_system data) a (batch_resources data)
                     (batch_expired_at data))
       (map (fun a => id a) (actions data)))
    (fst st)
  = (Ok policies, store') ->
  let body :=
    map (fun p => mkActionPolicyBody (mkAction (action_id p)) (policy_id p)) policies in
  (AuthBatchInstanceSLZ request_data = Ok data ->
   valid_instances (batch_system data) (batch_resources data) = true ->
   exists st' : ViewState Store,
     batch_instance_post request_data st = (Ok (Response_ok body), st'))
  /\ (AuthBatchPathSLZ request_data = Ok data ->
      valid_paths (batch_system data) (batch_resources data) = true ->
      exists st' : ViewState Store,
        batch_path_post request_data st = (Ok (Response_ok body), st'))
  /\ List.length body = List.length (actions data)
  /\ map (fun b => id (body_action b)) body = map (fun a => id a) (actions data).
Proof.
  intros Horder Hg body.
  pose proof (Horder _ _ _ _ _ _ Hg) as Hids.
  rewrite fan_out_action_ids in Hids.
  repeat split.
  - intros Hv Hok. eexists.
    unfold AuthBatchInstanceView_post, to_policy_list_for_instances.
    unfold bind at 1. unfold lift at 1. rewrite Hv.
    rewrite Hok. unfold bind at 1. unfold lift at 1.
    apply batch_tail. exact Hg.
  - intros Hv Hok. eexists.
    unfold AuthBatchPathView_post, to_policy_list_for_paths.
    unfold bind at 1. unfold lift at 1. rewrite Hv.
    rewrite Hok. unfold bind at 1. unfold lift at 1.
    apply batch_tail. exact Hg.
  - unfold body. rewrite length_map.
    rewrite <- (length_map action_id policies), Hids. now rewrite length_map.
  - unfold body. rewrite batch_body_action_ids. exact Hids.
Qed.

(** The tail of the two single-action views, from the store call on. *)
Lemma single_tail (data : AuthData) (policy_list : list Policy)
    (policies : list StoredPolicy) (st : ViewState Store) (store' : Store) :
  grant_or_revoke (operate data) (subject data) policy_list (fst st)
  = (Ok policies, store') ->
  (policies <-
     call_grant_or_revoke grant_or_revoke (operate data) (subject data) policy_list ;;
   audit_context_setter (operate data) (subject data) (system data) policies ;;
   p <- lift (first_policy policies) ;;
   ret (Response_ok (mkPolicyIdBody (policy_id p)))) st
  = (match policies with
     | p :: _ => Ok (Response_ok (mkPolicyIdBody (policy_id p)))
     | [] => Raise IndexError
     end,
     (store',
      snd st ++ [mkAuditContext (operate data) (subject data) (system data) policies])).
Proof.
  intros Hg. unfold bind, call_grant_or_revoke. rewrite Hg.
  destruct policies; reflexivity.
Qed.

(** What a single-action view answers, whichever of the two it is. *)
Lemma single_post_outcome
    (slz : Detail -> Result AuthData) (valid : string -> list Detail -> bool)
    (request_data : Detail) (st : ViewState Store)
    (r : Result (Response PolicyIdBody)) (st' : ViewState Store) :
  (data <- lift (slz request_data) ;;
   policy_list <- lift (if valid (system data) (resources data)
                        then Ok [mkPolicy (system data) (id (action data))
                                   (resources data) (expired_at data)]
                        else Raise (Raised "InvalidResourceKind")) ;;
   policies <-
     call_grant_or_revoke grant_or_revoke (operate data) (subject data) policy_list ;;
   audit_context_setter (operate data) (subject data) (system data) policies ;;
   p <- lift (first_policy policies) ;;
   ret (Response_ok (mkPolicyIdBody (policy_id p)))) st = (r, st') ->
  forall response : Response PolicyIdBody,
    r = Ok response ->
    exists data policy_list p rest store',
      slz request_data = Ok data
      /\ grant_or_revoke (operate data) (subject data) policy_list (fst st)
         = (Ok (p :: rest), store')
      /\ response = Response_ok (mkPolicyIdBody (policy_id p)).
Proof.
  intros Hrun response ->.
  unfold bind at 1 in Hrun. unfold lift at 1 in Hrun.
  destruct (slz request_data) as [data|e] eqn:Hv; [|discriminate].
  unfold bind at 1 in Hrun. unfold lift at 1 in Hrun.
  destruct (valid (system data) (resources data)); [|discriminate].
  destruct (grant_or_revoke (operate data) (subject data)
              [mkPolicy (system data) (id (action data)) (resources data)
                 (expired_at data)] (fst st)) as [[policies|e] store'] eqn:Hg.
  - rewrite (single_tail data _ policies st store' Hg) in Hrun.
    destruct policies as [|p rest]; [discriminate|].
    inversion Hrun; subst.
    exists data, [mkPolicy (system data) (id (action data)) (resources data)
                    (expired_at data)], p, rest, store'.
    repeat split; auto.
  - unfold bind, call_grant_or_revoke in Hrun. rewrite Hg in Hrun. discriminate.
Qed.

(** C9: the single-action endpoints read the first stored policy.  For a
    request that passes validation and translation, when [grant_or_revoke]
    returns a non-empty list the view answers [{policy_id}] with the id of
    its first element; when it returns the empty list the view raises
    ([IndexError], after the audit context is set) and answers nothing.
    Hence every success response of the instance view and of the path view
    carries the [policy_id] of the first policy that a successful
    [grant_or_revoke] call returned. *)
Theorem single_response_is_first_policy
    (request_data : Detail) (st : ViewState Store) :
  (forall (data : AuthData) (policies : list StoredPolicy) (store' : Store),
      grant_or_revoke (operate data) (subject data)
        [mkPolicy (system data) (id (action data)) (resources data) (expired_at data)]
        (fst st)
      = (Ok policies, store') ->
      let outcome :=
        (match policies with
         | p :: _ => Ok (Response_ok (mkPolicyIdBody (policy_id p)))
         | [] => Raise IndexError
         end,
         (store',
          snd st ++ [mkAuditContext (operate data) (subject data) (system data)
                       policies])) in
      (AuthInstanceSLZ request_data = Ok data ->
       valid_instances (system data) (resources data) = true ->
       instance_post request_data st = outcome)
      /\ (AuthPathSLZ request_data = Ok data ->
          valid_paths (system data) (resources data) = true ->
          path_post request_data st = outcome))
  /\ (forall (response : Response PolicyIdBody) (st' : ViewState Store),
         instance_post request_data st = (Ok response, st')
         \/ path_post request_data st = (Ok response, st') ->
         exists data policy_list p rest store',
           (AuthInstanceSLZ request_data = Ok data \/ AuthPathSLZ request_data = Ok data)
           /\ grant_or_revoke (operate data) (subject data) policy_list (fst st)
              = (Ok (p :: rest), store')
           /\ response = Response_ok (mkPolicyIdBody (policy_id p))).
Proof.
  split.
  - intros data policies store' Hg outcome. split; intros Hv Hok.
    + unfold AuthInstanceView_post, to_policy_list_for_instance.
      unfold bind at 1. unfold lift at 1. rewrite Hv.
      rewrite Hok. unfold bind at 1. unfold lift at 1.
      apply single_tail. exact Hg.
    + unfold AuthPathView_post, to_policy_list_for_path.
      unfold bind at 1. unfold lift at 1. rewrite Hv.
      rewrite Hok. unfold bind at 1. unfold lift at 1.
      apply single_tail. exact Hg.
  - intros response st' [Hrun | Hrun].
    + destruct (single_post_outcome AuthInstanceSLZ valid_instances request_data st
                  (Ok response) st' Hrun response eq_refl)
        as (data & pl & p & rest & store' & Hv & Hg & Hr).
      exists data, pl, p, rest, store'. auto.
    + destruct (single_post_outcome AuthPathSLZ valid_paths request_data st
                  (Ok response) st' Hrun response eq_refl)
        as (data & pl & p & rest & store' & Hv & Hg & Hr).
      exists data, pl, p, rest, store'. auto.
Qed.

End ViewProperties.

(** ** Worked examples *)

Lemma store_policies_in_order (subject_ : Subject) (policy_list : list Policy) :
  forall next : Z,
    map action_id (store_policies subject_ policy_list next)
    = map policy_action_id policy_list.
Proof.
  induction policy_list as [|p rest IH]; intros next; simpl; [reflexivity|].
  now rewrite IH.
Qed.

(** The open-API validation failure of the spec is answered with status 200
    and a [VALIDATE_ERROR] body. *)
Lemma open_api_status_override_example :
  exists (response : Response (ErrorCode * string)) (tr' : Trace),
    process_exception "non_field_errors" json_text json_text sample_format_exc
      sample_default_message sample_native_status sample_format_message
      sample_open_request (sample_validation_error []) []
    = (Ok (Some response), tr')
    /\ fst (data response) = VALIDATE_ERROR
    /\ status response = 200%Z.
Proof.
  destruct (open_api_status_override "non_field_errors" json_text json_text
              sample_format_exc sample_default_message sample_native_status
              sample_format_message sample_open_request (sample_validation_error [])
              [] [] _ eq_refl eq_refl)
    as (response & tr' & Hrun & Hdata & Hopen & _).
  exists response, tr'. split; [exact Hrun|]. split.
  - rewrite Hdata. reflexivity.
  - apply Hopen; [reflexivity|]. simpl. intuition discriminate.
Defined.

(** The nested error of the spec, with a label registered for [id]. *)
Lemma one_line_error_example :
  _one_line_error "non_field_errors" json_text
    (sample_validation_error [("id", OtherField "ID")])
  = Ok (VStr "ID: required").
Proof.
  refine (proj2 (proj2 (proj2
            (one_line_error_first_offending_field "non_field_errors" json_text
               (sample_validation_error [("id", OtherField "ID")])
               "" "resources" _ _ [] eq_refl eq_refl)))
            "Resources" "" _ eq_refl eq_refl eq_refl _).
  discriminate.
Defined.

(** Batch grant of [view] and [edit] to [user:bob]. *)
Lemma batch_response_example :
  exists st' : ViewState Z,
    AuthBatchInstanceView_post (sample_slz sample_batch_data) sample_valid
      sample_grant_or_revoke sample_request_data (1%Z, [])
    = (Ok (Response_ok [mkActionPolicyBody (mkAction "view") 1;
                        mkActionPolicyBody (mkAction "edit") 2]), st').
Proof.
  refine (proj1 (batch_response_in_request_order Z
                   (sample_slz sample_batch_data) (sample_slz sample_batch_data)
                   sample_valid sample_valid sample_grant_or_revoke
                   sample_request_data sample_batch_data (1%Z, []) _ _ _ eq_refl)
            eq_refl eq_refl).
  intros operate_ subject_ policy_list store0 stored store1 H.
  inversion H. apply store_policies_in_order.
Defined.

(** The same validation failure on an internal request. *)
Lemma validation_error_message_example :
  _exception_to_error "non_field_errors" json_text json_text
    sample_default_message sample_native_status sample_format_message
    sample_web_request (sample_validation_error [("id", OtherField "ID")]) []
  = (Ok (Some (mkCodeException VALIDATE_ERROR "validate error: ID: required" 400)), []).
Proof.
  refine (proj1 (proj2
            (validation_error_message "non_field_errors" json_text json_text
               sample_default_message sample_native_status sample_format_message
               sample_web_request (sample_validation_error [("id", OtherField "ID")]) []
               eq_refl eq_refl eq_refl eq_refl eq_refl eq_refl))
            (VStr "ID: required") eq_refl eq_refl).
Defined.

(** A domain failure raised behind an open-API request. *)
Lemma domain_failure_example :
  _exception_to_error "non_field_errors" json_text json_text
    sample_default_message sample_native_status sample_format_message
    sample_open_request (mkException [] VNone None (Some sample_domain_failure)) []
  = (Ok (Some sample_domain_failure),
     [SetRollback; LogApiErrorTrace sample_open_request None]).
Proof.
  refine (proj1
            (domain_failure_passes_through "non_field_errors" json_text json_text
               sample_format_exc sample_default_message sample_native_status
               sample_format_message sample_open_request
               (mkException [] VNone None (Some sample_domain_failure))
               sample_domain_failure [] _ eq_refl)).
  intros cls. reflexivity.
Defined.

(** An exception of no known class. *)
Lemma unexpected_failure_example :
  process_exception "non_field_errors" json_text json_text sample_format_exc
    sample_default_message sample_native_status sample_format_message
    sample_web_request (mkException [] (VStr "boom") None None) []
  = (Ok (Some (mkResponse (SYSTEM_ERROR, "system error") 500%Z)),
     [LoggerError "Traceback (most recent call last)" "/api/v1/web/policies/" "POST" "{}";
      LogApiErrorTrace sample_web_request (Some true);
      CaptureException (mkException [] (VStr "boom") None None)]).
Proof.
  refine (proj1
            (unexpected_failure_is_SYSTEM_ERROR "non_field_errors" json_text json_text
               sample_format_exc sample_default_message sample_native_status
               sample_format_message sample_web_request
               (mkException [] (VStr "boom") None None))
            _ eq_refl []).
  intros cls. reflexivity.
Defined.

(** An [Http404] that is a domain failure as well is still left alone. *)
Lemma http404_example :
  process_exception "non_field_errors" json_text json_text sample_format_exc
    sample_default_message sample_native_status sample_format_message
    sample_open_request
    (mkException [ValidationError; Http404] sample_detail None (Some sample_domain_failure))
    []
  = (Ok None, []).
Proof.
  exact (http404_passes_through "non_field_errors" json_text json_text
           sample_format_exc sample_default_message sample_native_status
           sample_format_message sample_open_request
           (mkException [ValidationError; Http404] sample_detail None
              (Some sample_domain_failure))
           [] eq_refl).
Defined.

(** An authentication failure that is a permission failure and a domain
    failure as well. *)
Lemma unauthenticated_example :
  _exception_to_error "non_field_errors" json_text json_text
    sample_default_message sample_native_status sample_format_message
    sample_open_request
    (mkException [PermissionDenied; AuthenticationFailed] VNone None
       (Some sample_domain_failure))
    []
  = (Ok (Some (mkCodeException UNAUTHORIZED "unauthorized" 401)), []).
Proof.
  exact (proj1
           (unauthenticated_is_UNAUTHORIZED "non_field_errors" json_text json_text
              sample_default_message sample_native_status sample_format_message
              sample_open_request
              (mkException [PermissionDenied; AuthenticationFailed] VNone None
                 (Some sample_domain_failure))
              [] (or_intror eq_refl))).
Defined.

(** Grant of [view] on [host:123] to [user:alice], and the same request
    against a store that returns no policy. *)
Lemma single_response_example :
  AuthInstanceView_post (sample_slz sample_auth_data) sample_valid
    sample_grant_or_revoke sample_request_data (7%Z, [])
  = (Ok (Response_ok (mkPolicyIdBody 7)),
     (8%Z,
      [mkAuditContext "grant" (mkSubject "user" "alice") "bk_cmdb"
         [mkStoredPolicy 7 "view" (mkSubject "user" "alice") 4102444800]]))
  /\ AuthPathView_post (sample_slz sample_auth_data) sample_valid
       empty_grant_or_revoke sample_request_data (7%Z, [])
     = (Raise IndexError,
        (7%Z, [mkAuditContext "grant" (mkSubject "user" "alice") "bk_cmdb" []])).
Proof.
  split.
  - exact (proj1
             (proj1 (single_response_is_first_policy Z
                       (sample_slz sample_auth_data) (sample_slz sample_auth_data)
                       sample_valid sample_valid sample_grant_or_revoke
                       sample_request_data (7%Z, []))
                sample_auth_data _ _ eq_refl)
             eq_refl eq_refl).
  - exact (proj2
             (proj1 (single_response_is_first_policy Z
                       (sample_slz sample_auth_data) (sample_slz sample_auth_data)
                       sample_valid sample_valid empty_grant_or_revoke
                       sample_request_data (7%Z, []))
                sample_auth_data _ _ eq_refl)
             eq_refl eq_refl).
Defined.

(** * Further properties *)

(** ** More on [_one_line_error] *)

Section OneLineErrorEdges.

Variable NON_FIELD_ERRORS_KEY : string.
Variable repr : Detail -> string.

Local Abbreviation one_line_rec := (_one_line_error_rec NON_FIELD_ERRORS_KEY repr).
Local Abbreviation one_line := (_one_line_error NON_FIELD_ERRORS_KEY repr).
Local Abbreviation leaf := (one_line_leaf NON_FIELD_ERRORS_KEY repr).

(** X1: a non-field error is returned as it is.  When the first entry of the
    detail is under the non-field-errors key and holds a list of messages,
    the first message is the result, without any prefix, whatever schema is
    attached and even when none is. *)
Theorem non_field_error_is_returned_verbatim
    (exc : Exception) (m : Detail) (ms : list Detail) (rest : list (string * Detail)) :
  detail exc = VDict ((NON_FIELD_ERRORS_KEY, VList (m :: ms)) :: rest) ->
  one_line exc = Ok m.
Proof.
  intros Hd. unfold _one_line_error. cbn [_one_line_error_rec]. rewrite Hd. simpl.
  unfold one_line_leaf. rewrite String.eqb_refl. reflexivity.
Qed.

(** X2: without a schema nothing is descended.  When no serializer is
    attached, the line is [key: message] for a list of messages, and for a
    nested mapping it is the key followed by the text of the whole
    mapping. *)
Theorem without_serializer_raw_key
    (exc : Exception) (key : string) (error : Detail) (rest : list (string * Detail)) :
  serializer exc = None ->
  detail exc = VDict ((key, error) :: rest) ->
  key <> NON_FIELD_ERRORS_KEY ->
  (forall (m : Detail) (ms : list Detail),
      error = VList (m :: ms) ->
      one_line exc
      = Ok (VStr (String.append key (String.append ": " (str repr m)))))
  /\ (forall items : list (string * Detail),
         error = VDict items ->
         one_line exc
         = Ok (VStr (String.append key (String.append ": " (repr error))))).
Proof.
  intros Hs Hd Hk.
  assert (Hleaf : forall e, leaf exc key e
                            = Ok (VStr (String.append key (String.append ": " (str repr e))))).
  { intros e. unfold one_line_leaf. rewrite Hs.
    destruct (String.eqb_spec key NON_FIELD_ERRORS_KEY); [contradiction | reflexivity]. }
  split.
  - intros m ms ->. unfold _one_line_error. cbn [_one_line_error_rec].
    rewrite Hd. simpl. apply Hleaf.
  - intros items ->. unfold _one_line_error. cbn [_one_line_error_rec].
    rewrite Hd. simpl. rewrite Hs. apply Hleaf.
Qed.

Lemma one_line_leaf_without_fields
    (exc : Exception) (ser : Field) (key : string) (m : Detail) (ms : list Detail)
    (rest : list (string * Detail)) :
  serializer exc = Some ser ->
  (forall (l : string) (fs : list (string * Field)), ser <> Serializer l fs) ->
  detail exc = VDict ((key, VList (m :: ms)) :: rest) ->
  key <> NON_FIELD_ERRORS_KEY ->
  one_line exc = Raise (AttributeError "fields").
Proof.
  intros Hs Hser Hd Hk. unfold _one_line_error. cbn [_one_line_error_rec].
  rewrite Hd. simpl. unfold one_line_leaf. rewrite Hs.
  destruct (String.eqb_spec key NON_FIELD_ERRORS_KEY); [contradiction|].
  destruct ser as [l c | l fs | l]; try reflexivity.
  exfalso. apply (Hser l fs). reflexivity.
Qed.

Lemma one_line_ListField_schema
    (exc : Exception) (l key : string) (c : Field)
    (eitems rest : list (string * Detail)) :
  serializer exc = Some (ListField l c) ->
  detail exc = VDict ((key, VDict eitems) :: rest) ->
  one_line exc = one_line (set_serializer (new_ValidationError (VDict eitems)) c).
Proof.
  intros Hs Hd.
  pose proof (depth_dict_head key (VDict eitems) rest) as He.
  rewrite <- Hd in He.
  set (n := S (depth (detail exc))).
  rewrite (one_line_unfold NON_FIELD_ERRORS_KEY repr (S n) exc) by (subst n; lia).
  rewrite (one_line_unfold NON_FIELD_ERRORS_KEY repr n
             (set_serializer (new_ValidationError (VDict eitems)) c))
    by (rewrite detail_set_serializer; subst n; simpl in *; lia).
  clearbody n. cbn [_one_line_error_rec]. rewrite Hd, Hs. cbn [next_iter_items].
  reflexivity.
Qed.

(** X3: a schema without [fields] breaks the labelling.  When the attached
    schema is not a [Serializer] (a list field, or any other field) and the
    first entry of the detail is a non-empty list of messages under a key
    other than the non-field-errors key, the extraction raises
    [AttributeError]: the label lookup reads [exc.serializer.fields]. *)
Theorem serializer_without_fields_raises
    (exc : Exception) (ser : Field) (key : string) (m : Detail) (ms : list Detail)
    (rest : list (string * Detail)) :
  serializer exc = Some ser ->
  (forall (l : string) (fs : list (string * Field)), ser <> Serializer l fs) ->
  detail exc = VDict ((key, VList (m :: ms)) :: rest) ->
  key <> NON_FIELD_ERRORS_KEY ->
  one_line exc = Raise (AttributeError "fields").
Proof.
  intros Hs Hser Hd Hk.
  exact (one_line_leaf_without_fields exc ser key m ms rest Hs Hser Hd Hk).
Qed.

(** X4: a list field over a child that is not a serializer.  When the schema
    declares the first offending key as a list field whose child has no
    [fields] (a list of lists, a list of dict fields), and the error of the
    first element is itself a mapping to a list of messages, the extraction
    raises [AttributeError] instead of returning a line. *)
Theorem list_field_of_plain_child_raises
    (exc : Exception) (ser c : Field) (key k k2 l : string) (m : Detail)
    (ms : list Detail) (r2 r1 rest : list (string * Detail)) :
  detail exc
  = VDict ((key, VDict ((k, VDict ((k2, VList (m :: ms)) :: r2)) :: r1)) :: rest) ->
  serializer exc = Some ser ->
  lookup key (getattr_fields ser) = Some (ListField l c) ->
  (forall (l' : string) (fs : list (string * Field)), c <> Serializer l' fs) ->
  k2 <> NON_FIELD_ERRORS_KEY ->
  one_line exc = Raise (AttributeError "fields").
Proof.
  intros Hd Hs Hf Hc Hk.
  rewrite (one_line_ListField NON_FIELD_ERRORS_KEY repr exc ser key k l c _ rest r1 Hd Hs Hf).
  apply (one_line_leaf_without_fields _ c k2 m ms r2); auto.
Qed.

(** X5: a list field attached as the schema itself.  When [exc.serializer]
    is a list field and the first entry of the detail holds a mapping, the
    line is that of this mapping under the child of the list field. *)
Theorem list_field_schema_recurses
    (exc : Exception) (l key : string) (c : Field)
    (eitems rest : list (string * Detail)) :
  serializer exc = Some (ListField l c) ->
  detail exc = VDict ((key, VDict eitems) :: rest) ->
  one_line exc = one_line (set_serializer (new_ValidationError (VDict eitems)) c).
Proof.
  intros Hs Hd. exact (one_line_ListField_schema exc l key c eitems rest Hs Hd).
Qed.

(** X6: empty containers below the top.  An empty list of messages under the
    first key raises [IndexError] whatever the schema; an empty mapping
    under a first key that the schema declares as a list field or as a
    nested serializer, or under a list field attached as the schema, raises
    [StopIteration]. *)
Theorem empty_nested_error_raises
    (exc : Exception) (key : string) (rest : list (string * Detail)) :
  (detail exc = VDict ((key, VList []) :: rest) -> one_line exc = Raise IndexError)
  /\ (forall (ser c : Field) (l : string),
         detail exc = VDict ((key, VDict []) :: rest) ->
         serializer exc = Some ser ->
         lookup key (getattr_fields ser) = Some (ListField l c) ->
         one_line exc = Raise StopIteration)
  /\ (forall (ser : Field) (l : string) (fs : list (string * Field)),
         detail exc = VDict ((key, VDict []) :: rest) ->
         serializer exc = Some ser ->
         lookup key (getattr_fields ser) = Some (Serializer l fs) ->
         one_line exc = Raise StopIteration)
  /\ (forall (l : string) (c : Field),
         detail exc = VDict ((key, VDict []) :: rest) ->
         serializer exc = Some (ListField l c) ->
         one_line exc = Raise StopIteration).
Proof.
  repeat split.
  - intros Hd. unfold _one_line_error. cbn [_one_line_error_rec]. rewrite Hd.
    reflexivity.
  - intros ser c l Hd Hs Hf. unfold _one_line_error. cbn [_one_line_error_rec].
    rewrite Hd, Hs. cbn [next_iter_items]. unfold contains_key. rewrite Hf.
    reflexivity.
  - intros ser l fs Hd Hs Hf.
    rewrite (one_line_Serializer NON_FIELD_ERRORS_KEY repr exc ser key l fs [] rest Hd Hs Hf).
    reflexivity.
  - intros l c Hs Hd.
    rewrite (one_line_ListField_schema exc l key c [] rest Hd Hs).
    reflexivity.
Qed.

(** The detail of a [ValidationError] is a list or a dict. *)
Lemma new_ValidationError_detail (d : Detail) :
  (exists l, detail (new_ValidationError d) = VList l)
  \/ (exists items, detail (new_ValidationError d) = VDict items).
Proof.
  destruct d; simpl; eauto.
Qed.

Lemma one_line_leaf_raises (exc : Exception) (key : string) (error : Detail) (e : PyError) :
  leaf exc key error = Raise e -> e = AttributeError "fields".
Proof.
  unfold one_line_leaf.
  destruct (String.eqb key NON_FIELD_ERRORS_KEY); [discriminate|].
  destruct (serializer exc) as [[l c | l fs | l]|]; simpl; try discriminate;
    try (intros E; inversion E; reflexivity).
  unfold contains_key, getitem. destruct (lookup key fs); discriminate.
Qed.

Lemma one_line_rec_raises (n : nat) :
  forall (exc : Exception) (e : PyError),
    (exists l, detail exc = VList l) \/ (exists items, detail exc = VDict items) ->
    one_line_rec n exc = Raise e ->
    e = IndexError \/ e = StopIteration \/ e = AttributeError "fields"
    \/ e = RecursionError.
Proof.
  induction n as [|n IH]; intros exc e Hwf Hr.
  { simpl in Hr. inversion Hr. auto. }
  simpl in Hr.
  assert (Hrec : forall d f,
             one_line_rec n (set_serializer (new_ValidationError d) f) = Raise e ->
             e = IndexError \/ e = StopIteration \/ e = AttributeError "fields"
             \/ e = RecursionError).
  { intros d f. apply IH. rewrite detail_set_serializer.
    apply new_ValidationError_detail. }
  assert (Hleaf : forall k x, leaf exc k x = Raise e ->
                              e = IndexError \/ e = StopIteration
                              \/ e = AttributeError "fields" \/ e = RecursionError).
  { intros k x H. apply one_line_leaf_raises in H. auto. }
  destruct Hwf as [[l Hd] | [items Hd]]; rewrite Hd in Hr.
  { destruct l; simpl in Hr; inversion Hr; auto. }
  destruct items as [|[key error] rest]; simpl in Hr.
  { inversion Hr. auto. }
  destruct error as [| s | l | eitems]; try (eapply Hleaf; eassumption).
  { destruct l; simpl in Hr; [inversion Hr; auto | eapply Hleaf; eassumption]. }
  destruct (serializer exc) as [ser|]; [|eapply Hleaf; eassumption].
  destruct (if contains_key key (getattr_fields ser)
            then lookup key (getattr_fields ser) else None) as [[lb fc | lb fs | lb]|].
  - destruct eitems as [|[k c] erest]; simpl in Hr; [inversion Hr; auto|].
    eapply Hrec; eassumption.
  - eapply Hrec; eassumption.
  - destruct ser; try (eapply Hleaf; eassumption). eapply Hrec; eassumption.
  - destruct ser; try (eapply Hleaf; eassumption). eapply Hrec; eassumption.
Qed.

(** X7: what the extraction can raise.  On the detail of a validation error
    (a list or a dict) the extraction either returns or raises one of
    [IndexError] (an empty list), [StopIteration] (an empty mapping) and
    [AttributeError] on [fields]; the subscript [fields[key]] never raises
    [KeyError], and the recursion always ends. *)
Theorem one_line_error_raises_only (exc : Exception) (e : PyError) :
  (exists l, detail exc = VList l) \/ (exists items, detail exc = VDict items) ->
  one_line exc = Raise e ->
  e = IndexError \/ e = StopIteration \/ e = AttributeError "fields".
Proof.
  intros Hwf Hr.
  destruct (one_line_rec_raises _ exc e Hwf Hr) as [H | [H | [H | H]]]; auto.
  exfalso. subst e. exact (one_line_total NON_FIELD_ERRORS_KEY repr exc Hr).
Qed.

End OneLineErrorEdges.

(** ** More on the error middleware *)

Lemma prefix_iff (a s : string) :
  String.prefix a s = true <-> exists post : string, s = String.append a post.
Proof.
  revert s. induction a as [|c a IH]; intros s.
  - split; [intros _; exists s; reflexivity | intros _; destruct s; reflexivity].
  - destruct s as [|c' s]; simpl.
    + split; [discriminate | intros [post H]; discriminate].
    + destruct (Ascii.ascii_dec c c') as [->|Hne].
      * rewrite IH. split; intros [post H]; exists post.
        -- now rewrite H.
        -- now inversion H.
      * split; [discriminate | intros [post H]; inversion H; congruence].
Qed.

Lemma str_in_iff (needle s : string) :
  str_in needle s = true
  <-> exists pre post : string, s = String.append pre (String.append needle post).
Proof.
  induction s as [|c s IH].
  - cbn [str_in]. rewrite orb_false_r, prefix_iff. split.
    + intros [post H]. exists EmptyString, post. exact H.
    + intros [pre [post H]]. destruct pre; [exists post; exact H | discriminate].
  - cbn [str_in]. rewrite orb_true_iff, prefix_iff, IH. split.
    + intros [[post H] | [pre [post H]]].
      * exists EmptyString, post. exact H.
      * exists (String c pre), post. simpl. now rewrite H.
    + intros [pre [post H]]. destruct pre as [|c' pre].
      * left. exists post. exact H.
      * right. simpl in H. inversion H. exists pre, post. reflexivity.
Qed.

(** X8: which requests are open-API requests.  A request is one exactly
    when [/api/v1/open/] occurs somewhere in its path, at the start or after
    any site prefix, and whatever follows. *)
Theorem is_open_api_request_iff (request : Request) :
  _is_open_api_request request = true
  <-> exists pre post : string,
      path request = String.append pre (String.append "/api/v1/open/" post).
Proof.
  unfold _is_open_api_request. apply str_in_iff.
Qed.

Section MiddlewareOutcomes.

Variable NON_FIELD_ERRORS_KEY : string.
Variable repr : Detail -> string.
Variable json_dumps : Detail -> string.
Variable format_exc : Exception -> string.
Variable default_message : ErrorCode -> string.
Variable native_status : ErrorCode -> Z.
Variable format_message : string -> Detail -> option bool -> string.

Local Abbreviation errors := (error_codes default_message native_status).
Local Abbreviation fmt := (format format_message).
Local Abbreviation ignored := (ignore_errors default_message native_status).
Local Abbreviation one_line := (_one_line_error NON_FIELD_ERRORS_KEY repr).
Local Abbreviation exception_to_error :=
  (_exception_to_error NON_FIELD_ERRORS_KEY repr json_dumps
     default_message native_status format_message).
Local Abbreviation process :=
  (process_exception NON_FIELD_ERRORS_KEY repr json_dumps format_exc
     default_message native_status format_message).

(** X9: the framework categories after the unauthenticated one.  For an
    exception that is not an authentication failure: a permission failure is
    classified as [FORBIDDEN] whatever else it is; failing that, a
    method-not-allowed failure as [METHOD_NOT_ALLOWED] formatted with its
    detail; failing that, a parse failure as [JSON_FORMAT_ERROR] formatted
    with its detail.  None of them has an effect. *)
Theorem framework_failures_first_match
    (request : Request) (exc : Exception) (tr : Trace) :
  isinstance exc NotAuthenticated = false ->
  isinstance exc AuthenticationFailed = false ->
  (isinstance exc PermissionDenied = true ->
   exception_to_error request exc tr = (Ok (Some (errors FORBIDDEN)), tr))
  /\ (isinstance exc PermissionDenied = false ->
      isinstance exc MethodNotAllowed = true ->
      exception_to_error request exc tr
      = (Ok (Some (fmt (errors METHOD_NOT_ALLOWED) (detail exc) None)), tr))
  /\ (isinstance exc PermissionDenied = false ->
      isinstance exc MethodNotAllowed = false ->
      isinstance exc ParseError = true ->
      exception_to_error request exc tr
      = (Ok (Some (fmt (errors JSON_FORMAT_ERROR) (detail exc) None)), tr)).
Proof.
  intros H1 H2. unfold _exception_to_error. rewrite H1, H2. simpl.
  repeat split.
  - intros ->. reflexivity.
  - intros -> ->. reflexivity.
  - intros -> -> ->. reflexivity.
Qed.

(** The outcome of the classifier, category by category. *)
Lemma exception_to_error_outcome (request : Request) (exc : Exception) (tr : Trace) :
  (exists e, exception_to_error request exc tr = (Ok (Some e), tr)
             /\ (exists cls, isinstance exc cls = true /\ cls <> Http404))
  \/ (exists e, exception_to_error request exc tr = (Raise e, tr)
                /\ isinstance exc NotAuthenticated = false
                /\ isinstance exc AuthenticationFailed = false
                /\ isinstance exc PermissionDenied = false
                /\ isinstance exc MethodNotAllowed = false
                /\ isinstance exc ParseError = false
                /\ isinstance exc ValidationError = true
                /\ _is_open_api_request request = false
                /\ one_line exc = Raise e)
  \/ (exists e, exception_to_error request exc tr
                = (Ok (Some e), tr ++ [SetRollback; LogApiErrorTrace request None])
                /\ code_exception exc = Some e
                /\ forall cls, cls <> Http404 -> isinstance exc cls = false)
  \/ (exception_to_error request exc tr = (Ok None, tr)
      /\ code_exception exc = None
      /\ forall cls, cls <> Http404 -> isinstance exc cls = false).
Proof.
  unfold _exception_to_error.
  destruct (isinstance exc NotAuthenticated) eqn:C1;
    [left; eexists; split; [reflexivity | exists NotAuthenticated; split; [auto | discriminate]]|].
  destruct (isinstance exc AuthenticationFailed) eqn:C2;
    [left; eexists; split; [reflexivity | exists AuthenticationFailed; split; [auto | discriminate]]|].
  destruct (isinstance exc PermissionDenied) eqn:C3;
    [left; eexists; split; [reflexivity | exists PermissionDenied; split; [auto | discriminate]]|].
  destruct (isinstance exc MethodNotAllowed) eqn:C4;
    [left; eexists; split; [reflexivity | exists MethodNotAllowed; split; [auto | discriminate]]|].
  destruct (isinstance exc ParseError) eqn:C5;
    [left; eexists; split; [reflexivity | exists ParseError; split; [auto | discriminate]]|].
  destruct (isinstance exc ValidationError) eqn:C6.
  - simpl. destruct (_is_open_api_request request) eqn:Ho.
    + left. eexists. split; [reflexivity | exists ValidationError; split; [auto | discriminate]].
    + unfold bind, lift. destruct (_one_line_error _ _ exc) as [line|e] eqn:Hl.
      * left. eexists. split; [reflexivity | exists ValidationError; split; [auto | discriminate]].
      * right. left. exists e. repeat split; auto.
  - simpl. assert (Hcls : forall cls, cls <> Http404 -> isinstance exc cls = false).
    { intros cls Hn. destruct cls; auto. contradiction. }
    destruct (code_exception exc) as [e|].
    + right. right. left. exists e. repeat split; auto.
      unfold bind, set_rollback, log_api_error_trace, emit, ret. simpl.
      now rewrite <- app_assoc.
    + right. right. right. repeat split; auto.
Qed.

(** X10: when the middleware itself raises.  [process_exception] raises
    exactly when a validation failure (none of the categories before it, not
    a not-found failure) arrives on a request that is not an open-API
    request and the one-line extraction raises; it then raises that same
    exception, and logs, reports and rolls back nothing. *)
Theorem process_exception_raises_iff
    (request : Request) (exc : Exception) (tr tr' : Trace) (e : PyError) :
  process request exc tr = (Raise e, tr')
  <-> (tr' = tr
       /\ isinstance exc Http404 = false
       /\ isinstance exc NotAuthenticated = false
       /\ isinstance exc AuthenticationFailed = false
       /\ isinstance exc PermissionDenied = false
       /\ isinstance exc MethodNotAllowed = false
       /\ isinstance exc ParseError = false
       /\ isinstance exc ValidationError = true
       /\ _is_open_api_request request = false
       /\ one_line exc = Raise e).
Proof.
  split.
  - unfold process_exception.
    destruct (isinstance exc Http404) eqn:H404; [discriminate|].
    unfold bind at 1.
    destruct (exception_to_error_outcome request exc tr)
      as [(x & Hx & _) | [(x & Hx & H) | [(x & Hx & _) | (Hx & _)]]]; rewrite Hx.
    + discriminate.
    + intros E. inversion E; subst. intuition.
    + discriminate.
    + discriminate.
  - intros (-> & H404 & H1 & H2 & H3 & H4 & H5 & H6 & Ho & Hl).
    unfold process_exception, _exception_to_error.
    rewrite H404, H1, H2, H3, H4, H5, H6, Ho. simpl.
    unfold bind, lift. rewrite Hl. reflexivity.
Qed.

(** X11: no response only for a not-found failure.  [process_exception]
    answers [None] exactly for an [Http404], with the trace untouched;
    every other exception it returns for gets a response. *)
Theorem process_exception_None_iff
    (request : Request) (exc : Exception) (tr tr' : Trace) :
  process request exc tr = (Ok None, tr')
  <-> (isinstance exc Http404 = true /\ tr' = tr).
Proof.
  split.
  - unfold process_exception.
    destruct (isinstance exc Http404) eqn:H404.
    + intros E. inversion E. auto.
    + unfold bind at 1.
      destruct (exception_to_error_outcome request exc tr)
        as [(x & Hx & _) | [(x & Hx & H) | [(x & Hx & _) | (Hx & _)]]]; rewrite Hx;
        discriminate.
  - intros [H404 ->]. unfold process_exception. rewrite H404. reflexivity.
Qed.

(** X12: the transaction is rolled back for domain failures only.  The
    events [process_exception] adds to the trace hold a rollback exactly
    when the exception is of none of the framework classes and is a
    [CodeException]: never for a validation failure, a not-found failure or
    an unexpected failure. *)
Theorem rollback_only_for_domain_failures
    (request : Request) (exc : Exception) (tr : Trace) :
  exists events : list Event,
    snd (process request exc tr) = tr ++ events
    /\ (In SetRollback events
        <-> (forall cls : ExcClass, isinstance exc cls = false)
            /\ code_exception exc <> None).
Proof.
  unfold process_exception.
  destruct (isinstance exc Http404) eqn:H404.
  { exists []. simpl. rewrite app_nil_r. split; [reflexivity|].
    split; [contradiction|]. intros [Hc _]. rewrite Hc in H404. discriminate. }
  unfold bind at 1.
  destruct (exception_to_error_outcome request exc tr)
    as [(x & Hx & (cls & Hcls & _)) | [(x & Hx & H) | [(x & Hx & Hce & Hc) | (Hx & Hce & Hc)]]];
    rewrite Hx.
  - exists []. simpl. rewrite app_nil_r. split; [reflexivity|].
    split; [contradiction|]. intros [Hall _]. rewrite Hall in Hcls. discriminate.
  - exists []. simpl. rewrite app_nil_r. split; [reflexivity|].
    split; [contradiction|]. intros [Hall _].
    destruct H as (_ & _ & _ & _ & _ & H6 & _). rewrite Hall in H6. discriminate.
  - exists [SetRollback; LogApiErrorTrace request None]. simpl. split; [reflexivity|].
    split.
    + intros _. split; [|rewrite Hce; discriminate].
      intros cls. destruct cls; auto; apply Hc; discriminate.
    + intros _. left. reflexivity.
  - eexists. unfold bind, logger_error, log_api_error_trace, capture_exception, emit, ret.
    simpl. rewrite <- !app_assoc. simpl. split; [reflexivity|].
    split.
    + intros [E | [E | [E | []]]]; discriminate.
    + intros [_ Hn]. contradiction.
Qed.

(** X13: the framework failures on the open API.  On an open-API request,
    for an exception that is not a not-found failure: an authentication
    failure and, failing that, a permission failure are answered with the
    default body and the registered status of their code; failing those, a
    method-not-allowed failure, a parse failure and a validation failure are
    answered with status 200 and a body of their code, the validation
    failure with the JSON text of its detail, without any extraction. *)
Theorem open_api_framework_responses
    (request : Request) (exc : Exception) (tr : Trace) :
  _is_open_api_request request = true ->
  isinstance exc Http404 = false ->
  let unauthenticated :=
    isinstance exc NotAuthenticated || isinstance exc AuthenticationFailed in
  (unauthenticated = true ->
   process request exc tr
   = (Ok (Some (mkResponse (UNAUTHORIZED, default_message UNAUTHORIZED)
                  (native_status UNAUTHORIZED))), tr))
  /\ (unauthenticated = false ->
      isinstance exc PermissionDenied = true ->
      process request exc tr
      = (Ok (Some (mkResponse (FORBIDDEN, default_message FORBIDDEN)
                     (native_status FORBIDDEN))), tr))
  /\ (unauthenticated = false ->
      isinstance exc PermissionDenied = false ->
      isinstance exc MethodNotAllowed = true ->
      process request exc tr
      = (Ok (Some (mkResponse
                     (METHOD_NOT_ALLOWED,
                      format_message (default_message METHOD_NOT_ALLOWED) (detail exc) None)
                     200%Z)), tr))
  /\ (unauthenticated = false ->
      isinstance exc PermissionDenied = false ->
      isinstance exc MethodNotAllowed = false ->
      isinstance exc ParseError = true ->
      process request exc tr
      = (Ok (Some (mkResponse
                     (JSON_FORMAT_ERROR,
                      format_message (default_message JSON_FORMAT_ERROR) (detail exc) None)
                     200%Z)), tr))
  /\ (unauthenticated = false ->
      isinstance exc PermissionDenied = false ->
      isinstance exc MethodNotAllowed = false ->
      isinstance exc ParseError = false ->
      isinstance exc ValidationError = true ->
      process request exc tr
      = (Ok (Some (mkResponse
                     (VALIDATE_ERROR,
                      format_message (default_message VALIDATE_ERROR)
                        (VStr (json_dumps (detail exc))) (Some true))
                     200%Z)), tr)).
Proof.
  intros Ho H404 unauthenticated. subst unauthenticated.
  unfold process_exception, _exception_to_error. rewrite H404, Ho.
  repeat split.
  - intros ->. reflexivity.
  - intros -> ->. reflexivity.
  - intros -> -> ->. reflexivity.
  - intros -> -> -> ->. reflexivity.
  - intros -> -> -> -> ->. reflexivity.
Qed.

End MiddlewareOutcomes.

(** ** The language of a request *)

Section LanguageAndStatus.

Variable NON_FIELD_ERRORS_KEY : string.
Variable repr : Detail -> string.
Variable json_dumps : Detail -> string.
Variable format_exc : Exception -> string.
Variable default_message : ErrorCode -> string.
Variable native_status : ErrorCode -> Z.
Variable format_message : string -> Detail -> option bool -> string.
Variable EN : string.

Local Abbreviation errors := (error_codes default_message native_status).
Local Abbreviation exception_to_error :=
  (_exception_to_error NON_FIELD_ERRORS_KEY repr json_dumps
     default_message native_status format_message).
Local Abbreviation process :=
  (process_exception NON_FIELD_ERRORS_KEY repr json_dumps format_exc
     default_message native_status format_message).
Local Abbreviation process_request := (AppExceptionMiddleware_process_request EN).

(** X14: the status override and the forced language go together.  When
    [process_exception] answers with a status other than the one of the
    classified error, [process_request] had activated English for that
    request and recorded it on the request, whatever language was active
    before; and a request that is not an open-API request keeps the active
    language and is answered with the status of its error. *)
Theorem overridden_status_in_english
    (request : Request) (exc : Exception) (tr tr1 tr' : Trace)
    (classified : option CodeException) (response : Response (ErrorCode * string))
    (s : I18n) :
  exception_to_error request exc tr = (Ok classified, tr1) ->
  process request exc tr = (Ok (Some response), tr') ->
  let error := match classified with
               | Some e => e
               | None => errors SYSTEM_ERROR
               end in
  (status response <> status_code error ->
   process_request request s = (Ok tt, mkI18n EN (Some EN)))
  /\ (_is_open_api_request request = false ->
      process_request request s = (Ok tt, s)
      /\ status response = status_code error).
Proof.
  intros Hx Hp error.
  unfold process_exception in Hp.
  destruct (isinstance exc Http404); [discriminate|].
  unfold bind at 1 in Hp. rewrite Hx in Hp.
  assert (Hstatus : status response
                    = if _is_open_api_request request
                         && negb (isinstance_error error
                                    (ignore_errors default_message native_status))
                      then HTTP_200_OK else status_code error).
  { subst error. destruct classified; unfold bind, ret in Hp; simpl in Hp.
    - inversion Hp. reflexivity.
    - unfold logger_error, log_api_error_trace, capture_exception, emit in Hp.
      simpl in Hp. inversion Hp. reflexivity. }
  unfold AppExceptionMiddleware_process_request.
  destruct (_is_open_api_request request); simpl in Hstatus.
  - split; [intros _; reflexivity | discriminate].
  - split; [intros Hne; contradiction | intros _; split; [reflexivity | exact Hstatus]].
Qed.

End LanguageAndStatus.

(** ** The request id middleware *)

Lemma lookup_dict_set_same {A : Type} (d : list (string * A)) (key : string) (value : A) :
  lookup key (dict_set d key value) = Some value.
Proof.
  induction d as [|[k v] rest IH]; simpl.
  - now rewrite String.eqb_refl.
  - destruct (String.eqb key k) eqn:E; simpl; rewrite E; [reflexivity | exact IH].
Qed.

Lemma lookup_dict_set_other {A : Type} (d : list (string * A)) (key key' : string)
    (value : A) :
  key' <> key -> lookup key' (dict_set d key value) = lookup key' d.
Proof.
  intros Hne. induction d as [|[k v] rest IH]; simpl.
  - destruct (String.eqb_spec key' key); [contradiction | reflexivity].
  - destruct (String.eqb_spec key k) as [->|Hk]; simpl.
    + destruct (String.eqb_spec key' k); [contradiction | reflexivity].
    + destruct (String.eqb key' k); [reflexivity | exact IH].
Qed.

(** A header written is the header read, under any casing of its name; the
    other headers read as before. *)
Lemma set_header_get_header_aux (response : HttpResponse) (header value : string) :
  (forall h : string, lower h = lower header ->
                      get_header (set_header response header value) h = Ok value)
  /\ (forall h : string, lower h <> lower header ->
                         lookup (lower h) (headers (set_header response header value))
                         = lookup (lower h) (headers response)).
Proof.
  split.
  - intros h Hh. unfold get_header, set_header. simpl. rewrite Hh.
    now rewrite lookup_dict_set_same.
  - intros h Hh. unfold set_header. simpl. now apply lookup_dict_set_other.
Qed.

Section RequestIdProperties.

Variable LocalState : Type.
Variable local_set_request : Request -> LocalState -> LocalState.
Variable local_get_http_request_id : LocalState -> string * LocalState.
Variable local_release : LocalState -> LocalState.
Variable get_response : Request -> M (ProviderState LocalState) HttpResponse.

Local Abbreviation call :=
  (RequestProvider_call local_set_request local_get_http_request_id local_release
     get_response).
Local Abbreviation before :=
  (RequestProvider_process_request local_set_request local_get_http_request_id).
Local Abbreviation after := (RequestProvider_process_response local_release).

(** X15: the middleware and its compatibility methods agree.  Calling the
    middleware is [process_request], then the rest of the chain, then
    [process_response] on its response; when the rest of the chain raises,
    the middleware raises the same exception and [local] is left unreleased,
    in the state the chain left it. *)
Theorem request_provider_call_composes
    (request : Request) (s : ProviderState LocalState) :
  call request s
  = (before request ;;
     response <- get_response request ;;
     after request response) s
  /\ (forall (e : PyError) (s1 : ProviderState LocalState),
         get_response request (snd (before request s)) = (Raise e, s1) ->
         call request s = (Raise e, s1)).
Proof.
  split.
  - unfold RequestProvider_call, RequestProvider_process_request,
      RequestProvider_process_response, bind, set_local_request, get_http_request_id,
      set_request_id. simpl.
    destruct (local_get_http_request_id (local_set_request request (fst s))).
    reflexivity.
  - intros e s1. unfold RequestProvider_call, RequestProvider_process_request,
      bind, set_local_request, get_http_request_id, set_request_id. simpl.
    destruct (local_get_http_request_id (local_set_request request (fst s))).
    simpl. intros ->. reflexivity.
Qed.

(** X16: the response carries the request id.  When the middleware returns
    a response, its [X-Request-Id] header, under any casing, is the
    [request_id] the request holds at that point, whatever such header the
    rest of the chain had set; when the rest of the chain left that
    attribute alone, it is the id [local.get_http_request_id()] gave for
    this request. *)
Theorem request_provider_sets_header
    (request : Request) (s s' : ProviderState LocalState) (response : HttpResponse) :
  call request s = (Ok response, s') ->
  exists rid : string,
    snd s' = Some rid
    /\ (forall h : string, lower h = "x-request-id" -> get_header response h = Ok rid)
    /\ (forall (inner : HttpResponse) (s1 : ProviderState LocalState),
           get_response request (snd (before request s)) = (Ok inner, s1) ->
           snd s1 = snd (snd (before request s)) ->
           rid = fst (local_get_http_request_id (local_set_request request (fst s)))).
Proof.
  unfold RequestProvider_call, RequestProvider_process_request, bind,
    set_local_request, get_http_request_id, set_request_id. simpl.
  destruct (local_get_http_request_id (local_set_request request (fst s)))
    as [rid0 local1] eqn:Hid. simpl.
  destruct (get_response request (local1, Some rid0)) as [[inner|e] s1] eqn:Hg;
    [|discriminate].
  unfold get_request_id. destruct (snd s1) as [rid|] eqn:Hrid; [|discriminate].
  unfold release, ret. simpl. intros E. inversion E; subst. clear E.
  exists rid. simpl. split; [exact Hrid|]. split.
  - intros h Hh.
    apply (proj1 (set_header_get_header_aux inner "X-Request-Id" rid)). exact Hh.
  - intros inner' s1' E Hkeep. inversion E; subst. rewrite Hrid in Hkeep.
    simpl in Hkeep. now inversion Hkeep.
Qed.

End RequestIdProperties.

(** ** More on the open authorization views *)

Section ViewEffects.

Variable Store : Type.
Variable AuthInstanceSLZ AuthPathSLZ : Detail -> Result AuthData.
Variable AuthBatchInstanceSLZ AuthBatchPathSLZ : Detail -> Result AuthBatchData.
Variable valid_instances valid_paths : string -> list Detail -> bool.
Variable grant_or_revoke :
  string -> Subject -> list Policy -> Store -> Result (list StoredPolicy) * Store.

Local Abbreviation instance_post :=
  (AuthInstanceView_post AuthInstanceSLZ valid_instances grant_or_revoke).
Local Abbreviation path_post :=
  (AuthPathView_post AuthPathSLZ valid_paths grant_or_revoke).
Local Abbreviation batch_instance_post :=
  (AuthBatchInstanceView_post AuthBatchInstanceSLZ valid_instances grant_or_revoke).
Local Abbreviation batch_path_post :=
  (AuthBatchPathView_post AuthBatchPathSLZ valid_paths grant_or_revoke).

Lemma disciplined_from_store {A : Type}
    (operate_ : string) (subject_ : Subject) (system_id : string)
    (policy_list : list Policy) (k : list StoredPolicy -> M (ViewState Store) A)
    (st : ViewState Store) :
  (forall policies s, snd (k policies s) = s) ->
  disciplined grant_or_revoke st
    ((policies <- call_grant_or_revoke grant_or_revoke operate_ subject_ policy_list ;;
      audit_context_setter operate_ subject_ system_id policies ;;
      k policies) st).
Proof.
  intros Hk. right. exists operate_, subject_, policy_list.
  unfold bind, call_grant_or_revoke.
  destruct (grant_or_revoke operate_ subject_ policy_list (fst st)) as [[policies|e] store']
    eqn:Hg.
  - exists (Ok policies). simpl. rewrite Hk. simpl. split; [reflexivity|].
    exists system_id. reflexivity.
  - exists (Raise e). simpl. auto.
Qed.

(** X17: the effects of the four views.  Whatever the request, each view
    either raises with the store and the audit context untouched (the
    request is invalid, or a resource is rejected), or makes exactly one
    [grant_or_revoke] call on the store it found; the audit context is set
    once, with the policies that call returned, when the call returns, and
    is left alone when the call raises, the view raising the same
    exception. *)
Theorem views_are_disciplined (request_data : Detail) (st : ViewState Store) :
  disciplined grant_or_revoke st (instance_post request_data st)
  /\ disciplined grant_or_revoke st (path_post request_data st)
  /\ disciplined grant_or_revoke st (batch_instance_post request_data st)
  /\ disciplined grant_or_revoke st (batch_path_post request_data st).
Proof.
  assert (Hsingle : forall policies (s : ViewState Store),
             snd ((p <- lift (first_policy policies) ;;
                   ret (Response_ok (mkPolicyIdBody (policy_id p)))) s) = s).
  { intros policies s. destruct policies; reflexivity. }
  repeat split.
  - unfold AuthInstanceView_post, to_policy_list_for_instance.
    unfold bind at 1. unfold lift at 1.
    destruct (AuthInstanceSLZ request_data) as [data|e]; [|left; simpl; eauto].
    unfold bind at 1. unfold lift at 1.
    destruct (valid_instances (system data) (resources data)); [|left; simpl; eauto].
    apply (disciplined_from_store (operate data) (subject data) (system data) _
             (fun policies => p <- lift (first_policy policies) ;;
                              ret (Response_ok (mkPolicyIdBody (policy_id p))))).
    exact Hsingle.
  - unfold AuthPathView_post, to_policy_list_for_path.
    unfold bind at 1. unfold lift at 1.
    destruct (AuthPathSLZ request_data) as [data|e]; [|left; simpl; eauto].
    unfold bind at 1. unfold lift at 1.
    destruct (valid_paths (system data) (resources data)); [|left; simpl; eauto].
    apply (disciplined_from_store (operate data) (subject data) (system data) _
             (fun policies => p <- lift (first_policy policies) ;;
                              ret (Response_ok (mkPolicyIdBody (policy_id p))))).
    exact Hsingle.
  - unfold AuthBatchInstanceView_post, to_policy_list_for_instances.
    unfold bind at 1. unfold lift at 1.
    destruct (AuthBatchInstanceSLZ request_data) as [data|e]; [|left; simpl; eauto].
    unfold bind at 1. unfold lift at 1.
    destruct (valid_instances (batch_system data) (batch_resources data));
      [|left; simpl; eauto].
    apply (disciplined_from_store (batch_operate data) (batch_subject data)
             (batch_system data) _
             (fun policies =>
                ret (Response_ok
                       (map (fun p => mkActionPolicyBody (mkAction (action_id p))
                                        (policy_id p)) policies)))).
    reflexivity.
  - unfold AuthBatchPathView_post, to_policy_list_for_paths.
    unfold bind at 1. unfold lift at 1.
    destruct (AuthBatchPathSLZ request_data) as [data|e]; [|left; simpl; eauto].
    unfold bind at 1. unfold lift at 1.
    destruct (valid_paths (batch_system data) (batch_resources data));
      [|left; simpl; eauto].
    apply (disciplined_from_store (batch_operate data) (batch_subject data)
             (batch_system data) _
             (fun policies =>
                ret (Response_ok
                       (map (fun p => mkActionPolicyBody (mkAction (action_id p))
                                        (policy_id p)) policies)))).
    reflexivity.
Qed.

(** X18: the batch views answer what the store returned.  When validation
    and translation pass and [grant_or_revoke] returns, a batch view
    succeeds whatever list it returned: the body has one element per stored
    policy, with the action id and the policy id of that policy, so it is
    empty when the store returned no policy, where a single-action view
    raises. *)
Theorem batch_response_follows_store
    (request_data : Detail) (data : AuthBatchData) (st : ViewState Store)
    (policies : list StoredPolicy) (store' : Store) :
  grant_or_revoke (batch_operate data) (batch_subject data)
    (map (fun a => mkPolicy (batch_system data) a (batch_resources data)
                     (batch_expired_at data))
       (map (fun a => id a) (actions data)))
    (fst st)
  = (Ok policies, store') ->
  let body :=
    map (fun p => mkActionPolicyBody (mkAction (action_id p)) (policy_id p)) policies in
  let st' :=
    (store',
     snd st ++ [mkAuditContext (batch_operate data) (batch_subject data)
                  (batch_system data) policies]) in
  (AuthBatchInstanceSLZ request_data = Ok data ->
   valid_instances (batch_system data) (batch_resources data) = true ->
   batch_instance_post request_data st = (Ok (Response_ok body), st'))
  /\ (AuthBatchPathSLZ request_data = Ok data ->
      valid_paths (batch_system data) (batch_resources data) = true ->
      batch_path_post request_data st = (Ok (Response_ok body), st'))
  /\ List.length body = List.length policies
  /\ (policies = [] -> body = []).
Proof.
  intros Hg body st'. repeat split.
  - intros Hv Hok.
    unfold AuthBatchInstanceView_post, to_policy_list_for_instances.
    unfold bind at 1. unfold lift at 1. rewrite Hv.
    rewrite Hok. unfold bind at 1. unfold lift at 1.
    unfold bind, call_grant_or_revoke. rewrite Hg. reflexivity.
  - intros Hv Hok.
    unfold AuthBatchPathView_post, to_policy_list_for_paths.
    unfold bind at 1. unfold lift at 1. rewrite Hv.
    rewrite Hok. unfold bind at 1. unfold lift at 1.
    unfold bind, call_grant_or_revoke. rewrite Hg. reflexivity.
  - unfold body. apply length_map.
  - intros ->. reflexivity.
Qed.

End ViewEffects.

(** ** Further worked examples *)

Lemma non_field_error_example :
  _one_line_error "non_field_errors" json_text
    (mkException [ValidationError]
       (VDict [("non_field_errors", VList [VStr "expired_at is in the past"])])
       (Some (ListField "" (OtherField ""))) None)
  = Ok (VStr "expired_at is in the past").
Proof.
  exact (non_field_error_is_returned_verbatim "non_field_errors" json_text
           (mkException [ValidationError]
              (VDict [("non_field_errors", VList [VStr "expired_at is in the past"])])
              (Some (ListField "" (OtherField ""))) None)
           _ [] [] eq_refl).
Defined.

Lemma without_serializer_example :
  _one_line_error "non_field_errors" json_text
    (mkException [ValidationError] sample_detail None None)
  = Ok (VStr (String.append "resources: " (json_text (VDict [("0", VDict [("id", VList [VStr "required"])])])))).
Proof.
  refine (proj2 (without_serializer_raw_key "non_field_errors" json_text
                   (mkException [ValidationError] sample_detail None None)
                   "resources" _ [] eq_refl eq_refl _) _ eq_refl).
  discriminate.
Defined.

Lemma serializer_without_fields_example :
  _one_line_error "non_field_errors" json_text
    (mkException [ValidationError] (VDict [("1", VList [VStr "bad"])])
       (Some (ListField "" (OtherField ""))) None)
  = Raise (AttributeError "fields").
Proof.
  refine (serializer_without_fields_raises "non_field_errors" json_text
            (mkException [ValidationError] (VDict [("1", VList [VStr "bad"])])
               (Some (ListField "" (OtherField ""))) None)
            (ListField "" (OtherField "")) "1" (VStr "bad") [] [] eq_refl _ eq_refl _);
    discriminate.
Defined.

Lemma list_field_of_plain_child_example :
  _one_line_error "non_field_errors" json_text sample_matrix_error
  = Raise (AttributeError "fields").
Proof.
  refine (list_field_of_plain_child_raises "non_field_errors" json_text
            sample_matrix_error _ (ListField "" (OtherField "")) "matrix" "0" "1" "Matrix"
            (VStr "bad") [] [] [] [] eq_refl eq_refl eq_refl _ _);
    discriminate.
Defined.

Lemma list_field_schema_example :
  _one_line_error "non_field_errors" json_text
    (mkException [ValidationError] (VDict [("0", VDict [("id", VList [VStr "required"])])])
       (Some (ListField "Resources" (sample_child [("id", OtherField "ID")]))) None)
  = Ok (VStr "ID: required").
Proof.
  exact (list_field_schema_recurses "non_field_errors" json_text
           (mkException [ValidationError]
              (VDict [("0", VDict [("id", VList [VStr "required"])])])
              (Some (ListField "Resources" (sample_child [("id", OtherField "ID")]))) None)
           "Resources" "0" (sample_child [("id", OtherField "ID")])
           [("id", VList [VStr "required"])] [] eq_refl eq_refl).
Defined.

Lemma empty_nested_error_example :
  _one_line_error "non_field_errors" json_text
    (mkException [ValidationError] (VDict [("resources", VDict [])])
       (Some (sample_serializer [])) None)
  = Raise StopIteration.
Proof.
  exact (proj1 (proj2 (empty_nested_error_raises "non_field_errors" json_text
                         (mkException [ValidationError] (VDict [("resources", VDict [])])
                            (Some (sample_serializer [])) None)
                         "resources" []))
           (sample_serializer []) (sample_child []) "Resources" eq_refl eq_refl eq_refl).
Defined.

Lemma one_line_error_raises_only_example :
  AttributeError "fields" = IndexError
  \/ AttributeError "fields" = StopIteration
  \/ AttributeError "fields" = AttributeError "fields".
Proof.
  refine (one_line_error_raises_only "non_field_errors" json_text sample_matrix_error
            (AttributeError "fields") _ eq_refl).
  right. eexists. reflexivity.
Defined.

Lemma framework_failures_example :
  _exception_to_error "non_field_errors" json_text json_text
    sample_default_message sample_native_status sample_format_message
    sample_web_request
    (mkException [ValidationError; MethodNotAllowed] (VStr "PATCH") None None) []
  = (Ok (Some (mkCodeException METHOD_NOT_ALLOWED "method not allowed: PATCH" 405)), []).
Proof.
  exact (proj1 (proj2
           (framework_failures_first_match "non_field_errors" json_text json_text
              sample_default_message sample_native_status sample_format_message
              sample_web_request
              (mkException [ValidationError; MethodNotAllowed] (VStr "PATCH") None None)
              [] eq_refl eq_refl))
           eq_refl eq_refl).
Defined.

Lemma process_exception_raises_example :
  process_exception "non_field_errors" json_text json_text sample_format_exc
    sample_default_message sample_native_status sample_format_message
    sample_web_request sample_matrix_error []
  = (Raise (AttributeError "fields"), []).
Proof.
  apply (proj2 (process_exception_raises_iff "non_field_errors" json_text json_text
                  sample_format_exc sample_default_message sample_native_status
                  sample_format_message sample_web_request sample_matrix_error [] []
                  (AttributeError "fields"))).
  repeat split.
Defined.

Lemma open_api_framework_example :
  process_exception "non_field_errors" json_text json_text sample_format_exc
    sample_default_message sample_native_status sample_format_message
    sample_open_request
    (mkException [ParseError] (VStr "JSON parse error") None None) []
  = (Ok (Some (mkResponse (JSON_FORMAT_ERROR, "json format error: JSON parse error")
                 200%Z)), []).
Proof.
  exact (proj1 (proj2 (proj2 (proj2
           (open_api_framework_responses "non_field_errors" json_text json_text
              sample_format_exc sample_default_message sample_native_status
              sample_format_message sample_open_request
              (mkException [ParseError] (VStr "JSON parse error") None None)
              [] eq_refl eq_refl))))
           eq_refl eq_refl eq_refl eq_refl).
Defined.

Lemma request_provider_example :
  exists rid : string,
    rid = "req-42"
    /\ forall response s',
        RequestProvider_call sample_local_set_request sample_local_get_http_request_id
          sample_local_release sample_get_response sample_open_request ("req-42", None)
        = (Ok response, s') ->
        get_header response "X-REQUEST-ID" = Ok rid.
Proof.
  exists "req-42". split; [reflexivity|].
  intros response s' Hcall.
  destruct (request_provider_sets_header string sample_local_set_request
              sample_local_get_http_request_id sample_local_release sample_get_response
              sample_open_request ("req-42", None) s' response Hcall)
    as (rid & _ & Hheader & Hid).
  rewrite (Hheader "X-REQUEST-ID" eq_refl). f_equal. exact (Hid _ _ eq_refl eq_refl).
Defined.

Lemma batch_response_follows_store_example :
  AuthBatchInstanceView_post (sample_slz sample_batch_data) sample_valid
    empty_grant_or_revoke sample_request_data (1%Z, [])
  = (Ok (Response_ok []),
     (1%Z, [mkAuditContext "grant" (mkSubject "user" "bob") "bk_cmdb" []])).
Proof.
  exact (proj1 (batch_response_follows_store Z
                  (sample_slz sample_batch_data) (sample_slz sample_batch_data)
                  sample_valid sample_valid empty_grant_or_revoke
                  sample_request_data sample_batch_data (1%Z, []) [] 1%Z eq_refl)
           eq_refl eq_refl).
Defined.

Lemma overridden_status_example :
  AppExceptionMiddleware_process_request "en" sample_open_request (mkI18n "zh-hans" None)
  = (Ok tt, mkI18n "en" (Some "en")).
Proof.
  refine (proj1 (overridden_status_in_english "non_field_errors" json_text json_text
                   sample_format_exc sample_default_message sample_native_status
                   sample_format_message "en" sample_open_request
                   (sample_validation_error []) [] [] [] _ _ (mkI18n "zh-hans" None)
                   eq_refl eq_refl) _).
  discriminate.
Defined.

(** On a non-empty mapping the first entry decides, the later ones do not
    count. *)
Lemma one_line_error_first_entry_example :
  _one_line_error "non_field_errors" json_text
    (mkException [ValidationError]
       (VDict [("name", VList [VStr "required"; VStr "too short"]);
               ("age", VList [VStr "not a number"])])
       None None)
  = Ok (VStr "name: required").
Proof.
  exact (proj1 (proj2 (proj2
           (one_line_error_needs_nonempty_detail "non_field_errors" json_text
              [ValidationError] None None)))
           "name" (VStr "required") [VStr "too short"]
           [("age", VList [VStr "not a number"])]).
Defined.

(** C6 as first stated does not hold: the error log of an unexpected
    failure on a [PUT] request holds the stack trace, the path, the method
    and the text [null]; the body of the request is none of the four. *)
Lemma unexpected_failure_log_without_body :
  exists (stack url method_ request_params : string) (others : list Event),
    snd (process_exception "non_field_errors" json_text json_text sample_format_exc
           sample_default_message sample_native_status sample_format_message
           sample_put_request (mkException [] (VStr "boom") None None) [])
    = LoggerError stack url method_ request_params :: others
    /\ getattr_request sample_put_request "body" = VStr "expired_at=0"
    /\ request_params = "null"
    /\ ~ In "expired_at=0" [stack; url; method_; request_params]
    /\ ~ In (json_text (getattr_request sample_put_request "body"))
            [stack; url; method_; request_params].
Proof.
  do 5 eexists. split; [reflexivity|].
  split; [reflexivity|]. split; [reflexivity|].
  split; simpl; intuition discriminate.
Defined.
